(** * PET, [input_output/read_config.py]: the PIPT init-file reader

    A shallow embedding of [read_txt], [read_clean_file],
    [remove_empty_lines], [parse_keywords] and
    [check_mand_keywords_da_fwdsim], and the properties of the parser that
    hold (or fail) on that code.

    Python values are modelled as follows.
    - [str] is [string]; the text is taken to be ASCII.
    - [float] is [pyfloat]: the exact rational a literal denotes (rounding to
      binary64 is not modelled), or an infinity, or NaN.
    - a keyword value is a [value]: a float, a string or a list of values.
    - a [dict] is an insertion-ordered association list with unique keys.
    - a raised exception is [Err e]; a bare [except:] turns any failure of
      the guarded body into the handler, so guarded bodies return [option]. *)

From Stdlib Require Import String Ascii List Bool Arith NArith ZArith QArith Lia.
Import ListNotations.
Open Scope string_scope.
Open Scope list_scope.
Open Scope nat_scope.

Set Implicit Arguments.
Set Warnings "-register-all".

(** ** Python string operations *)

Module PyStr.

(** [str.isspace] on an ASCII character: tab, newline, vertical tab, form
    feed, carriage return, the separators 0x1c-0x1f and the space. *)
Definition is_space (c : ascii) : bool :=
  let n := nat_of_ascii c in
  ((9 <=? n) && (n <=? 13)) || ((28 <=? n) && (n <=? 32)).

Definition is_digit (c : ascii) : bool :=
  let n := nat_of_ascii c in (48 <=? n) && (n <=? 57).

Definition is_newline (c : ascii) : bool := Ascii.eqb c "010"%char.

Definition lower_char (c : ascii) : ascii :=
  let n := nat_of_ascii c in
  if (65 <=? n) && (n <=? 90) then ascii_of_nat (n + 32) else c.

(** [s.lower()] *)
Fixpoint lower (s : string) : string :=
  match s with
  | EmptyString => EmptyString
  | String c s' => String (lower_char c) (lower s')
  end.

(** [s.lstrip(chars)], with the set of characters given as a predicate. *)
Fixpoint lstrip_by (p : ascii -> bool) (s : string) : string :=
  match s with
  | EmptyString => EmptyString
  | String c s' => if p c then lstrip_by p s' else s
  end.

(** [s.rstrip(chars)] *)
Fixpoint rstrip_by (p : ascii -> bool) (s : string) : string :=
  match s with
  | EmptyString => EmptyString
  | String c s' =>
      match rstrip_by p s' with
      | EmptyString => if p c then EmptyString else String c EmptyString
      | r => String c r
      end
  end.

(** [s.strip()] *)
Definition strip (s : string) : string := rstrip_by is_space (lstrip_by is_space s).

(** [s.rstrip('\n')] *)
Definition rstrip_nl (s : string) : string := rstrip_by is_newline s.

(** [s.split()]: the maximal runs of non-whitespace characters. *)
Fixpoint split (s : string) : list string :=
  match s with
  | EmptyString => []
  | String c s' =>
      if is_space c then split s'
      else match s' with
           | EmptyString => [String c EmptyString]
           | String d _ =>
               if is_space d then String c EmptyString :: split s'
               else match split s' with
                    | t :: ts => String c t :: ts
                    | [] => [String c EmptyString]
                    end
           end
  end.

(** [s.split(sep)] for a one-character separator: every field is kept, the
    empty ones too, so the result is never the empty list. *)
Fixpoint split_on (sep : ascii) (s : string) : list string :=
  match s with
  | EmptyString => [EmptyString]
  | String c s' =>
      if Ascii.eqb c sep then EmptyString :: split_on sep s'
      else match split_on sep s' with
           | t :: ts => String c t :: ts
           | [] => [String c EmptyString]
           end
  end.

Definition tab : ascii := "009"%char.

(** [s.startswith(p)] *)
Definition startswith (p s : string) : bool := String.prefix p s.

(** [s.endswith(p)] *)
Definition endswith (p s : string) : bool :=
  let n := String.length s in
  let m := String.length p in
  (m <=? n) && String.eqb (String.substring (n - m) m s) p.

End PyStr.

Import PyStr.

(** ** Python floats and [float(str)] *)

(** The value of a float: the exact rational of the literal in lowest terms,
    an infinity or NaN. *)
Inductive pyfloat : Type :=
| Finite (q : Q)
| Infinity (negative : bool)
| NaN.

Module PyFloat.

(** The characters a float literal is made of; every other character (white
    space inside the literal included) makes [float] raise [ValueError]. *)
Inductive fchar : Type :=
| FDigit (d : N)
| FSign (negative : bool)
| FDot
| FUnder
| FLetter (c : ascii).

Definition is_lower_letter (c : ascii) : bool :=
  let n := nat_of_ascii c in (97 <=? n) && (n <=? 122).

Definition lex_char (c : ascii) : option fchar :=
  if is_digit c then Some (FDigit (N_of_ascii c - 48))
  else if Ascii.eqb c "+"%char then Some (FSign false)
  else if Ascii.eqb c "-"%char then Some (FSign true)
  else if Ascii.eqb c "."%char then Some FDot
  else if Ascii.eqb c "_"%char then Some FUnder
  else if is_lower_letter (lower_char c) then Some (FLetter (lower_char c))
  else None.

Fixpoint lex (s : string) : option (list fchar) :=
  match s with
  | EmptyString => Some []
  | String c s' =>
      match lex_char c, lex s' with
      | Some f, Some l => Some (f :: l)
      | _, _ => None
      end
  end.

(** digitpart ::= digit (["_"] digit)*  -- the digits read and what follows. *)
Fixpoint digitpart (l : list fchar) : list N * list fchar :=
  match l with
  | FDigit d :: l' =>
      match l' with
      | FUnder :: ((FDigit _ :: _) as l'') =>
          let (ds, r) := digitpart l'' in (d :: ds, r)
      | _ => let (ds, r) := digitpart l' in (d :: ds, r)
      end
  | _ => ([], l)
  end.

Definition of_digits (ds : list N) : N :=
  fold_left (fun a d => (10 * a + d)%N) ds 0%N.

(** mantissa * 10^exponent as a rational in lowest terms *)
Definition decimal (negative : bool) (mantissa : N) (exponent : Z) : Q :=
  let m := if negative then Z.opp (Z.of_N mantissa) else Z.of_N mantissa in
  Qred (if (0 <=? exponent)%Z
        then Qmake (m * 10 ^ exponent)%Z 1
        else Qmake m (Pos.pow 10 (Z.to_pos (- exponent)))).

Definition letters (s : string) : list fchar :=
  map FLetter (list_ascii_of_string s).

Definition fchar_eqb (a b : fchar) : bool :=
  match a, b with
  | FDigit x, FDigit y => N.eqb x y
  | FSign x, FSign y => Bool.eqb x y
  | FDot, FDot => true
  | FUnder, FUnder => true
  | FLetter x, FLetter y => Ascii.eqb x y
  | _, _ => false
  end.

Fixpoint fchars_eqb (a b : list fchar) : bool :=
  match a, b with
  | [], [] => true
  | x :: a', y :: b' => fchar_eqb x y && fchars_eqb a' b'
  | _, _ => false
  end.

(** floatnumber ::= ([digitpart] "." digitpart | digitpart ["."]) [exponent] *)
Definition parse_number (negative : bool) (l : list fchar) : option pyfloat :=
  let (ip, r1) := digitpart l in
  let (fp, r2) := match r1 with
                  | FDot :: r => digitpart r
                  | _ => ([], r1)
                  end in
  match ip ++ fp with
  | [] => None
  | _ :: _ =>
      let mantissa := of_digits (ip ++ fp) in
      let scale := Z.of_nat (List.length fp) in
      match r2 with
      | [] => Some (Finite (decimal negative mantissa (- scale)))
      | FLetter "e" :: r3 =>
          let (eneg, r4) := match r3 with
                            | FSign b :: r => (b, r)
                            | _ => (false, r3)
                            end in
          match digitpart r4 with
          | ((_ :: _) as ed, []) =>
              let e := Z.of_N (of_digits ed) in
              Some (Finite (decimal negative mantissa
                              ((if eneg then - e else e) - scale)))
          | _ => None
          end
      | _ => None
      end
  end.

(** floatvalue ::= [sign] (floatnumber | "inf" | "infinity" | "nan"),
    letters in either case. *)
Definition parse_float (l : list fchar) : option pyfloat :=
  let (negative, r) := match l with
                       | FSign b :: r => (b, r)
                       | _ => (false, l)
                       end in
  if fchars_eqb r (letters "inf") || fchars_eqb r (letters "infinity")
  then Some (Infinity negative)
  else if fchars_eqb r (letters "nan") then Some NaN
  else parse_number negative r.

(** The white space [float] skips before and after the literal: tab,
    newline, vertical tab, form feed, carriage return and space.  The
    separators 0x1c-0x1f, which [str.strip] and [str.split] take for white
    space, are not among them. *)
Definition is_float_space (c : ascii) : bool :=
  let n := nat_of_ascii c in
  ((9 <=? n) && (n <=? 13)) || (n =? 32).

Definition float_strip (s : string) : string :=
  rstrip_by is_float_space (lstrip_by is_float_space s).

(** [float(s)]: [None] stands for [ValueError]. *)
Definition float (s : string) : option pyfloat :=
  match lex (float_strip s) with
  | Some l => parse_float l
  | None => None
  end.

(** [[float(x) for x in xs]]: fails as soon as one conversion fails. *)
Fixpoint floats (xs : list string) : option (list pyfloat) :=
  match xs with
  | [] => Some []
  | x :: xs' =>
      match float x with
      | Some f => match floats xs' with
                  | Some fs => Some (f :: fs)
                  | None => None
                  end
      | None => None
      end
  end.

End PyFloat.

(** ** Values, exceptions and dictionaries *)

(** What a keyword can be bound to: a float, a string, or a list whose
    entries are again values (vectors, matrices, and the mixed lists the
    second loop of [parse_keywords] builds). *)
Inductive value : Type :=
| VFloat (f : pyfloat)
| VStr (s : string)
| VList (l : list value).

(** The exceptions this file can raise. *)
Inductive exn : Type :=
| FileNotFoundError (msg : string)
| UnboundLocalError (variable : string)
| IndexError
| TypeError
| AssertionError (msg : string).

Inductive result (A : Type) : Type :=
| Ok (a : A)
| Err (e : exn).

Arguments Ok {A} a.
Arguments Err {A} e.

Definition bind {A B : Type} (r : result A) (k : A -> result B) : result B :=
  match r with
  | Ok a => k a
  | Err e => Err e
  end.

Notation "x <- r ;; k" := (bind r (fun x => k))
  (at level 61, r at next level, right associativity).
Notation "r ;;; k" := (bind r (fun _ => k))
  (at level 61, right associativity).

(** A [dict] with [str] keys, in insertion order. *)
Definition dict : Type := list (string * value).

Fixpoint dict_get (k : string) (d : dict) : option value :=
  match d with
  | [] => None
  | (k', v) :: d' => if String.eqb k' k then Some v else dict_get k d'
  end.

(** [d[k] = v]: an existing key keeps its place, a new one goes last. *)
Fixpoint dict_set (k : string) (v : value) (d : dict) : dict :=
  match d with
  | [] => [(k, v)]
  | (k', v') :: d' =>
      if String.eqb k' k then (k', v) :: d' else (k', v') :: dict_set k v d'
  end.

Definition dict_keys (d : dict) : list string := map fst d.

(** [k in d] *)
Definition dict_mem (k : string) (d : dict) : bool :=
  existsb (String.eqb k) (dict_keys d).

(** [l[a:b]] and [l[a:]] for indices that are not negative *)
Definition slice {A : Type} (a b : nat) (l : list A) : list A := skipn a (firstn b l).
Definition slice_from {A : Type} (a : nat) (l : list A) : list A := skipn a l.

(** [l[k] = v] for [k < len(l)] *)
Fixpoint list_set {A : Type} (k : nat) (v : A) (l : list A) : list A :=
  match l, k with
  | [], _ => []
  | _ :: l', O => v :: l'
  | x :: l', S k' => x :: list_set k' v l'
  end.

(** ** [remove_empty_lines] (lines 84-113) *)

Definition nl : string := String "010"%char EmptyString.
Definition tb : string := String tab EmptyString.

(** First loop: the indices of the lines that are exactly a newline. *)
Definition separators (lines : list string) : list nat :=
  filter (fun i => String.eqb (nth i lines "") nl) (seq 0 (List.length lines)).

(** The body of the second loop: the block that ends at the separator
    [sep[i]]. *)
Definition block_at (lines : list string) (sep : list nat) (i : nat) : list string :=
  if i =? 0 then slice 0 (nth i sep 0) lines
  else slice (nth (i - 1) sep 0 + 1) (nth i sep 0) lines.

(** Second loop: one block for each separator. *)
Definition remove_empty_lines (lines : list string) : list (list string) :=
  let sep := separators lines in
  map (block_at lines sep) (seq 0 (List.length sep)).

(** ** [parse_keywords], first loop (lines 137-174) *)

Import PyFloat.

Definition float_vector (fs : list pyfloat) : value := VList (map VFloat fs).

(** Lines 141-144, the body of the outer [try]. *)
Definition try_float_1d (payload : list string) : option value :=
  if (List.length payload =? 1) && (List.length (split (nth 0 payload "")) =? 1)
  then option_map VFloat (float (nth 0 payload ""))
  else option_map float_vector (floats payload).

(** [[[float(x) for x in col.split()] for col in cols]] *)
Fixpoint float_rows (cols : list string) : option (list value) :=
  match cols with
  | [] => Some []
  | col :: cols' =>
      match floats (split col) with
      | Some fs => match float_rows cols' with
                   | Some rows => Some (float_vector fs :: rows)
                   | None => None
                   end
      | None => None
      end
  end.

(** Lines 147-152, the body of the inner [try]. *)
Definition try_float_2d (payload : list string) : option value :=
  if List.length payload =? 1
  then option_map float_vector (floats (split (nth 0 payload "")))
  else option_map VList (float_rows payload).

Definition nonempty (x : string) : bool := negb (String.eqb x "").

(** [[x.rstrip('\n').lower() for x in col.split('\t') if x != '']] *)
Definition str_fields (col : string) : list value :=
  map (fun x => VStr (lower (rstrip_nl x))) (filter nonempty (split_on tab col)).

(** Lines 163-167: [one_col] stays [True] unless some row has several
    tab-separated fields. *)
Definition one_column (payload : list string) : bool :=
  forallb (fun row => negb (1 <? List.length (split_on tab row))) payload.

(** Lines 154-174, the last handler. *)
Definition as_strings (payload : list string) : value :=
  if List.length payload =? 1 then
    if List.length (split_on tab (nth 0 payload "")) =? 1
    then VStr (lower (strip (nth 0 payload "")))
    else VList (str_fields (nth 0 payload ""))
  else
    if one_column payload
    then VList (map (fun x => VStr (lower (rstrip_nl x))) payload)
    else VList (map (fun col => VList (str_fields col)) payload).

(** The value the first loop stores for a payload [lines[i][1:]]. *)
Definition classify (payload : list string) : value :=
  match try_float_1d payload with
  | Some v => v
  | None =>
      match try_float_2d payload with
      | Some v => v
      | None => as_strings payload
      end
  end.

(** [lines[i][0].strip().lower()] *)
Definition keyword_of (block : list string) : string := lower (strip (hd "" block)).

(** One turn of the first loop. *)
Definition store_block (keys : dict) (block : list string) : dict :=
  match block with
  | [] => keys
  | _ :: payload => dict_set (keyword_of block) (classify payload) keys
  end.

Definition classify_blocks (lines : list (list string)) : dict :=
  fold_left store_block lines [].

(** ** [parse_keywords], second loop (lines 180-202) *)

Definition is_str (v : value) : bool :=
  match v with VStr _ => true | _ => false end.

Definition is_float (v : value) : bool :=
  match v with VFloat _ => true | _ => false end.

(** Lines 186-192 and 196-202: what the nested [try] leaves in a list slot
    that holds [x]. *)
Definition repair_entry (x : value) : value :=
  match x with
  | VStr s =>
      match float s with
      | Some f => VFloat f
      | None =>
          match floats (split s) with
          | Some fs => float_vector fs
          | None => x
          end
      end
  | _ => x
  end.

(** One turn of [for k in range(len(l)): l[k] = f(l[k])], the list updated
    in place. *)
Definition update_step {A : Type} (f : A -> A) (acc : list A) (k : nat) : list A :=
  match nth_error acc k with
  | Some x => list_set k (f x) acc
  | None => acc
  end.

(** Lines 185-192 and 195-202: the loop over the entries of a list. *)
Definition repair_entries (l : list value) : list value :=
  fold_left (update_step repair_entry) (seq 0 (List.length l)) l.

(** Lines 184-192 for one row [keys[i][j]].  Iterating a float raises
    [TypeError].  The items of a [str] are all [str], but a [str] cannot be
    assigned to: each assignment raises inside its [try], and the row stays
    as it is. *)
Definition repair_row (row : value) : result value :=
  match row with
  | VList r => Ok (if forallb is_str r then VList (repair_entries r) else row)
  | VStr _ => Ok row
  | VFloat _ => Err TypeError
  end.

(** One turn of [for j in range(len(keys[i])): ...]; [acc] is the list so
    far, or the exception already raised. *)
Definition rows_step (acc : result (list value)) (j : nat) : result (list value) :=
  cur <- acc ;;
  match nth_error cur j with
  | Some row => row' <- repair_row row ;; Ok (list_set j row' cur)
  | None => Ok cur
  end.

(** Lines 183-192: the loop over the rows. *)
Definition repair_rows (rows : list value) : result (list value) :=
  fold_left rows_step (seq 0 (List.length rows)) (Ok rows).

(** Lines 181-202 for one value [keys[i]]; [keys[i][0]] raises [IndexError]
    on the empty list. *)
Definition repair_value (v : value) : result value :=
  match v with
  | VList l =>
      match nth_error l 0 with
      | None => Err IndexError
      | Some (VList _) => rows <- repair_rows l ;; Ok (VList rows)
      | Some _ => Ok (if forallb is_str l then VList (repair_entries l) else v)
      end
  | _ => Ok v
  end.

(** [for i in keys: ...]: every value in insertion order, the first
    exception ends the loop. *)
Fixpoint repair_pass (keys : dict) : result dict :=
  match keys with
  | [] => Ok []
  | (k, v) :: keys' =>
      v' <- repair_value v ;;
      rest <- repair_pass keys' ;;
      Ok ((k, v') :: rest)
  end.

Definition parse_keywords (lines : list (list string)) : result dict :=
  repair_pass (classify_blocks lines).

(** ** [check_mand_keywords_da_fwdsim] (lines 207-224) *)

Definition assert (c : bool) (msg : string) : result unit :=
  if c then Ok tt else Err (AssertionError msg).

(** The two kinds of object line 218 compares. *)
Inductive pyobj : Type :=
| ObjList (items : list string)
| ObjFilter (function : list string) (iterable : string).

(** The builtin [filter(function, iterable)]: no other [filter] is imported.
    It returns a lazy filter object and does not call [function]. *)
Definition builtin_filter (function : list string) (iterable : string) : pyobj :=
  ObjFilter function iterable.

(** [a != b]: two lists differ when their items do; a filter object and a
    list are never equal. *)
Definition obj_ne (a b : pyobj) : bool :=
  match a, b with
  | ObjList x, ObjList y => negb (if list_eq_dec string_dec x y then true else false)
  | ObjFilter f x, ObjFilter g y =>
      negb ((if list_eq_dec string_dec f g then true else false) && String.eqb x y)
  | _, _ => true
  end.

Definition check_mand_keywords_da_fwdsim (keys_da keys_fwd : dict) : result unit :=
  assert (dict_mem "ne" keys_da) "NE not in DATAASSIM!" ;;;
  assert (dict_mem "truedataindex" keys_da) "TRUEDATAINDEX not in DATAASSIM!" ;;;
  assert (dict_mem "assimindex" keys_da) "ASSIMINDEX not in DATAASSIM!" ;;;
  assert (dict_mem "truedata" keys_da) "TRUEDATA not in DATAASSIM!" ;;;
  assert (dict_mem "staticvar" keys_da) "STATICVAR not in DATAASSIM!" ;;;
  assert (dict_mem "datavar" keys_da) "DATAVAR not in DATAASSIM!" ;;;
  assert (dict_mem "obsname" keys_da) "OBSNAME not in DATAASSIM!" ;;;
  (if negb (dict_mem "importstaticvar" keys_da)
   then assert (obj_ne (builtin_filter (dict_keys keys_da) "prior_*") (ObjList []))
               "No PRIOR_<STATICVAR> in DATAASSIM"
   else Ok tt) ;;;
  assert (dict_mem "energy" keys_da) "ENERGY not in DATAASSIM!" ;;;
  assert (dict_mem "simulator" keys_fwd) "SIMULATOR not in FWDSIM!" ;;;
  assert (dict_mem "parallel" keys_fwd) "PARALLEL not in FWDSIM!" ;;;
  assert (dict_mem "datatype" keys_fwd) "DATATYPE not in FWDSIM!".

(** ** [read_clean_file] and [read_txt] (lines 5-81) *)

(** The files that can be opened: a path gives what [f.readlines()]
    returns, or nothing when [open] fails. *)
Definition filesystem : Type := string -> option (list string).

(** [Organize_input(keys_da, keys_fwd)], [organize()] and the two getters
    live in [input_output/organize.py]; the reader takes them as one
    function from the two parsed dictionaries. *)
Definition organizer : Type := dict -> dict -> result (dict * dict).

(** [not line.startswith('#')] *)
Definition keep_line (line : string) : bool := negb (startswith "#" line).

Definition read_clean_file (fs : filesystem) (init_file : string) : result (list string) :=
  match fs init_file with
  | Some raw => Ok (filter keep_line raw)
  | None => Err (FileNotFoundError init_file)
  end.

(** The locals the loop of lines 31-36 may leave unassigned. *)
Record markers : Type := Markers {
  ipind : option nat;
  ip_part : option string;
  fwdsimind : option nat
}.

(** [lines[i].strip().lower()] *)
Definition marker_text (line : string) : string := lower (strip line).

Definition is_ip_marker (line : string) : bool :=
  String.eqb (marker_text line) "dataassim" || String.eqb (marker_text line) "optim".

Definition is_fwd_marker (line : string) : bool :=
  String.eqb (marker_text line) "fwdsim".

(** One turn of the loop, for the line [lines[i]]. *)
Definition scan (line : string) (i : nat) (m : markers) : markers :=
  if is_ip_marker line
  then Markers (Some i) (Some (marker_text line)) (fwdsimind m)
  else if is_fwd_marker line
       then Markers (ipind m) (ip_part m) (Some i)
       else m.

Definition scan_line (lines : list string) (m : markers) (i : nat) : markers :=
  scan (nth i lines "") i m.

Definition find_markers (lines : list string) : markers :=
  fold_left (scan_line lines) (seq 0 (List.length lines)) (Markers None None None).

(** Reading a local variable *)
Definition local {A : Type} (name : string) (x : option A) : result A :=
  match x with
  | Some a => Ok a
  | None => Err (UnboundLocalError name)
  end.

(** Lines 31-60, on the lines [read_clean_file] returned. *)
Definition read_lines (Organize_input : organizer) (lines : list string)
  : result (dict * dict) :=
  let m := find_markers lines in
  i <- local "ipind" (ipind m) ;;
  f <- local "fwdsimind" (fwdsimind m) ;;
  let lines_ip := if i <? f then slice 2 f lines else slice_from (i + 2) lines in
  let lines_fwd := if i <? f then slice_from (f + 2) lines else slice 2 i lines in
  let clean_lines_ip := remove_empty_lines lines_ip in
  let clean_lines_fwd := remove_empty_lines lines_fwd in
  part <- local "ip_part" (ip_part m) ;;
  keys_da <- (if String.eqb part "dataassim" || String.eqb part "optim"
              then d <- parse_keywords clean_lines_ip ;; Ok (Some d)
              else Ok None) ;;
  keys_fwd <- parse_keywords clean_lines_fwd ;;
  da <- local "keys_da" keys_da ;;
  check_mand_keywords_da_fwdsim da keys_fwd ;;;
  Organize_input da keys_fwd.

Definition read_txt (fs : filesystem) (Organize_input : organizer) (init_file : string)
  : result (dict * dict) :=
  if negb (endswith ".pipt" init_file)
  then Err (FileNotFoundError
              ("No PIPT input file (.pipt) found! If " ++ init_file
               ++ " is  a PIPT input file, change suffix to .pipt"))
  else lines <- read_clean_file fs init_file ;;
       read_lines Organize_input lines.

(** An organizer that hands the two dictionaries back as they are. *)
Definition plain_organizer : organizer := fun keys_da keys_fwd => Ok (keys_da, keys_fwd).

(** ** Notions used to state the properties, and sample inputs *)

(** The float of an integer *)
Definition fl (z : Z) : pyfloat := Finite (Qmake z 1).

(** A line of a file: the text and its newline. *)
Definition ln (s : string) : string := (s ++ nl)%string.

Definition one : value := VFloat (fl 1).

(** A [keys_da] with the eight mandatory keywords and nothing else, and a
    [keys_fwd] with its three. *)
Definition da_without_prior : dict :=
  [("ne", one); ("truedataindex", one); ("assimindex", one); ("truedata", one);
   ("staticvar", one); ("datavar", one); ("obsname", one); ("energy", one)].

Definition fwd_complete : dict :=
  [("simulator", VStr "eclipse"); ("parallel", one); ("datatype", VStr "wopr")].

(** [f] on every item in order, up to the first exception. *)
Fixpoint map_result {A B : Type} (f : A -> result B) (l : list A) : result (list B) :=
  match l with
  | [] => Ok []
  | x :: l' => y <- f x ;; ys <- map_result f l' ;; Ok (y :: ys)
  end.

(** No character of [s] is white space. *)
Fixpoint no_space (s : string) : bool :=
  match s with
  | EmptyString => true
  | String c s' => negb (is_space c) && no_space s'
  end.

(** The list of lists of strings the last handler stores for several
    payload lines (lines 172-174). *)
Definition string_matrix (rows : list (list string)) : value :=
  VList (map (fun r => VList (map VStr r)) rows).

(** The loop of lines 31-36 run over the lines themselves, with the index
    of the first of them. *)
Fixpoint scan_from (i : nat) (ls : list string) (m : markers) : markers :=
  match ls with
  | [] => m
  | l :: ls' => scan_from (S i) ls' (scan l i m)
  end.

(** A line that is neither of the two section markers *)
Definition no_marker (line : string) : bool :=
  negb (is_ip_marker line) && negb (is_fwd_marker line).

(** The two sections of a small init file, and the file in both orders. *)
Definition pipt_da_section : list string :=
  [ln "DATAASSIM"; ln "# assimilation"; ln "----";
   ln "NE"; ln "100"; nl;
   ln "TRUEDATAINDEX"; ln "1 2 3"; nl;
   ln "ASSIMINDEX"; ln "1"; ln "2"; nl;
   ln "TRUEDATA"; ln "obs.npz"; nl;
   ln "STATICVAR"; ln "permx"; nl;
   ln "DATAVAR"; ln "var.npz"; nl;
   ln "OBSNAME"; ln "days"; nl;
   ln "ENERGY"; ln "98"; nl].

Definition pipt_fwd_section : list string :=
  [ln " FwdSim "; ln "----";
   ln "SIMULATOR"; ln ("eclipse" ++ tb ++ "flow")%string; nl;
   ln "PARALLEL"; ln "4"; nl;
   ln "DATATYPE"; ln "WOPR"; ln "WWPR"; nl].

Definition two_files : filesystem :=
  fun path =>
    if String.eqb path "da_first.pipt" then Some (pipt_da_section ++ pipt_fwd_section)
    else if String.eqb path "fwd_first.pipt" then Some (pipt_fwd_section ++ pipt_da_section)
    else None.

(** The indices of the newline-only lines of [ls], counted from [off]. *)
Fixpoint separators_from (off : nat) (ls : list string) : list nat :=
  match ls with
  | [] => []
  | l :: ls' =>
      if String.eqb l nl then off :: separators_from (S off) ls'
      else separators_from (S off) ls'
  end.

(** The blocks of [lines] that end at the separators [sep], the first of
    them starting at [start]. *)
Fixpoint cut (lines : list string) (start : nat) (sep : list nat) : list (list string) :=
  match sep with
  | [] => []
  | s :: sep' => slice start s lines :: cut lines (S s) sep'
  end.

(** Segments of lines put end to end, each closed by a blank line. *)
Definition closed_segments (segs : list (list string)) : list string :=
  flat_map (fun seg => seg ++ [nl]) segs.

(** A list that starts with a list and holds a float further on: the shape
    on which the second loop raises [TypeError]. *)
Definition float_beside_list (v : value) : bool :=
  match v with
  | VList (VList _ :: rest) => existsb is_float rest
  | _ => false
  end.

(** The blank-line-closed segments of [ls] and the lines left after the
    last blank line. *)
Fixpoint segments (ls : list string) : list (list string) * list string :=
  match ls with
  | [] => ([], [])
  | l :: ls' =>
      let (segs, rest) := segments ls' in
      if String.eqb l nl then ([] :: segs, rest)
      else match segs with
           | [] => ([], l :: rest)
           | seg :: segs' => ((l :: seg) :: segs', rest)
           end
  end.

(** [block != []] *)
Definition nonempty_block (block : list string) : bool :=
  match block with
  | [] => false
  | _ :: _ => true
  end.

Definition is_list (v : value) : bool :=
  match v with VList _ => true | _ => false end.

(** A list that starts with a list holds lists only. *)
Definition uniform_rows (v : value) : bool :=
  match v with
  | VList (VList _ :: rest) => forallb is_list rest
  | _ => true
  end.

(** Every value of the dictionary has that shape. *)
Definition uniform_dict (d : dict) : Prop :=
  Forall (fun kv => uniform_rows (snd kv) = true) d.

(** The keywords lines 210-216 and 219 look up in [keys_da], in that order,
    each with the message of its assertion. *)
Definition da_mandatory : list (string * string) :=
  [("ne", "NE not in DATAASSIM!");
   ("truedataindex", "TRUEDATAINDEX not in DATAASSIM!");
   ("assimindex", "ASSIMINDEX not in DATAASSIM!");
   ("truedata", "TRUEDATA not in DATAASSIM!");
   ("staticvar", "STATICVAR not in DATAASSIM!");
   ("datavar", "DATAVAR not in DATAASSIM!");
   ("obsname", "OBSNAME not in DATAASSIM!");
   ("energy", "ENERGY not in DATAASSIM!")].

(** The keywords lines 222-224 look up in [keys_fwd]. *)
Definition fwd_mandatory : list (string * string) :=
  [("simulator", "SIMULATOR not in FWDSIM!");
   ("parallel", "PARALLEL not in FWDSIM!");
   ("datatype", "DATATYPE not in FWDSIM!")].

(** Assertions run one after the other. *)
Fixpoint run_asserts (checks : list (bool * string)) : result unit :=
  match checks with
  | [] => Ok tt
  | (c, msg) :: checks' => assert c msg ;;; run_asserts checks'
  end.

(** The look-ups of a table in a dictionary. *)
Definition lookups (table : list (string * string)) (keys : dict) : list (bool * string) :=
  map (fun km => (dict_mem (fst km) keys, snd km)) table.

(** The same two sections, each with a keyword of its own ahead of the
    mandatory ones, behind one blank line, in both orders. *)
Definition titled_da_section : list string :=
  [ln "DATAASSIM"; ln "----";
   ln "TITLE"; ln "run 1"; nl;
   ln "NE"; ln "100"; nl;
   ln "TRUEDATAINDEX"; ln "1 2 3"; nl;
   ln "ASSIMINDEX"; ln "1"; ln "2"; nl;
   ln "TRUEDATA"; ln "obs.npz"; nl;
   ln "STATICVAR"; ln "permx"; nl;
   ln "DATAVAR"; ln "var.npz"; nl;
   ln "OBSNAME"; ln "days"; nl;
   ln "ENERGY"; ln "98"; nl].

Definition titled_fwd_section : list string :=
  [ln "FWDSIM"; ln "----";
   ln "REPORTPOINT"; ln "10"; nl;
   ln "SIMULATOR"; ln "eclipse"; nl;
   ln "PARALLEL"; ln "4"; nl;
   ln "DATATYPE"; ln "wopr"; nl].

Definition shifted_files : filesystem :=
  fun path =>
    if String.eqb path "da_first.pipt"
    then Some (nl :: titled_da_section ++ titled_fwd_section)
    else if String.eqb path "fwd_first.pipt"
         then Some (nl :: titled_fwd_section ++ titled_da_section)
         else None.

(** The mandatory part of the dictionaries those files give. *)
Definition da_mandatory_values : dict :=
  [("ne", VFloat (fl 100));
   ("truedataindex", float_vector [fl 1; fl 2; fl 3]);
   ("assimindex", float_vector [fl 1; fl 2]);
   ("truedata", VStr "obs.npz"); ("staticvar", VStr "permx");
   ("datavar", VStr "var.npz"); ("obsname", VStr "days");
   ("energy", VFloat (fl 98))].

Definition fwd_mandatory_values : dict :=
  [("simulator", VStr "eclipse"); ("parallel", VFloat (fl 4)); ("datatype", VStr "wopr")].

(** * Properties *)

(** ** Checks on concrete inputs *)

Example split_ex : split (" 1  2" ++ tb ++ "3 " ++ nl) = ["1"; "2"; "3"].
Proof. reflexivity. Qed.
Example split_on_ex : split_on tab ("Oil" ++ tb ++ "Water" ++ tb ++ nl) = ["Oil"; "Water"; nl].
Proof. reflexivity. Qed.
Example strip_ex : strip ("  a b " ++ nl) = "a b".
Proof. reflexivity. Qed.
Example rstrip_nl_ex : rstrip_nl ("a " ++ nl ++ nl) = "a ".
Proof. reflexivity. Qed.
Example endswith_ex : endswith ".pipt" "run.pipt" = true /\ endswith ".pipt" "pipt" = false.
Proof. split; reflexivity. Qed.

Example float_ex :
  float "100" = Some (fl 100) /\ float (" 1.0 " ++ nl) = Some (fl 1) /\
  float "-2.5e1" = Some (fl (-25)) /\ float "1_0.5" = Some (Finite (21 # 2)) /\
  float ".5E-1" = Some (Finite (1 # 20)) /\ float "1." = Some (fl 1) /\
  float "-INF" = Some (Infinity true) /\ float "NaN" = Some NaN /\
  float "Infinity" = Some (Infinity false) /\
  float "" = None /\ float "." = None /\ float "1e" = None /\
  float "1_" = None /\ float "1__0" = None /\ float "1 2" = None /\
  float "oil" = None /\ float "0x10" = None /\ float "+-1" = None /\
  float "infinit" = None /\ float "e5" = None /\ float "1e+" = None.
Proof. repeat split; vm_compute; reflexivity. Qed.

Example float_separator_ex :
  float (String "028" "5") = None /\
  split (String "028" "5") = ["5"] /\
  repair_entry (VStr (String "028" "5")) = VList [VFloat (fl 5)].
Proof. repeat split; vm_compute; reflexivity. Qed.

Example remove_empty_lines_ex :
  remove_empty_lines [ln "NE"; ln "100"; nl; ln "A"; ln "x"; nl]
  = [[ln "NE"; ln "100"]; [ln "A"; ln "x"]].
Proof. reflexivity. Qed.

Example parse_scalar_ex :
  parse_keywords [[ln "NE"; ln "100"]] = Ok [("ne", VFloat (fl 100))].
Proof. vm_compute. reflexivity. Qed.

Example parse_matrix_ex :
  parse_keywords [[ln "M"; ln "1 2"; ln "3"]]
  = Ok [("m", VList [float_vector [fl 1; fl 2]; float_vector [fl 3]])].
Proof. vm_compute. reflexivity. Qed.

Example parse_string_ex :
  parse_keywords [[ln "Sim"; ln "Eclipse"]; []; [ln "Names"; ln "A"; ln "B"]]
  = Ok [("sim", VStr "eclipse"); ("names", VList [VStr "a"; VStr "b"])].
Proof. vm_compute. reflexivity. Qed.

(** ** The defects of the code, on concrete inputs *)

(** C2 (the code departs from the claim).  [keys_da] holds the eight
    mandatory keywords, no [importstaticvar] and no [prior_<name>] key, and
    the validation still passes: line 218 compares a filter object with
    [[]], which are never equal, so its assertion cannot fail. *)
Theorem C2_prior_not_enforced :
  dict_mem "importstaticvar" da_without_prior = false /\
  existsb (startswith "prior_") (dict_keys da_without_prior) = false /\
  check_mand_keywords_da_fwdsim da_without_prior fwd_complete = Ok tt.
Proof. repeat split; reflexivity. Qed.

Lemma prior_check_vacuous (keys : list string) :
  obj_ne (builtin_filter keys "prior_*") (ObjList []) = true.
Proof. reflexivity. Qed.

(** C3 (the code departs from the claim).  A block that is only a keyword
    line is stored as the empty list, and [keys[i][0]] on line 182 then
    raises [IndexError] out of [parse_keywords]. *)
Theorem C3_keyword_only_block_raises :
  classify_blocks [[ln "NE"]] = [("ne", VList [])] /\
  parse_keywords [[ln "NE"]] = Err IndexError.
Proof. split; reflexivity. Qed.

(** C6 (the code departs from the claim).  The field after the last tab is
    the newline, which [x != ''] keeps and [rstrip] then empties; the second
    loop turns that empty string into the empty list. *)
Theorem C6_trailing_tab_leaves_empty_list :
  let line := ln ("Oil" ++ tb ++ "Water" ++ tb)%string in
  classify [line] = VList [VStr "oil"; VStr "water"; VStr ""] /\
  parse_keywords [[ln "PHASES"; line]]
  = Ok [("phases", VList [VStr "oil"; VStr "water"; VList []])].
Proof. split; vm_compute; reflexivity. Qed.

(** C7 (the code departs from the claim).  The two files hold one blank
    line and then the same two sections, in the two orders, and both are
    read without an exception, to different dictionaries.  The section that
    comes first is cut as [lines[2:...]], from the third line of the file
    and not from two lines after its marker as the second section is
    ([lines[fwdsimind + 2:]], [lines[ipind + 2:]]): its header line is
    taken for a keyword and the keyword [TITLE], or [REPORTPOINT], for a
    value of it. *)
Theorem C7_order_changes_result :
  read_txt shifted_files plain_organizer "da_first.pipt"
  = Ok (("----", VList [VStr "title"; VStr "run 1"]) :: da_mandatory_values,
        ("reportpoint", VFloat (fl 10)) :: fwd_mandatory_values) /\
  read_txt shifted_files plain_organizer "fwd_first.pipt"
  = Ok (("title", VStr "run 1") :: da_mandatory_values,
        ("----", VList [VStr "reportpoint"; VFloat (fl 10)]) :: fwd_mandatory_values) /\
  read_txt shifted_files plain_organizer "da_first.pipt"
  <> read_txt shifted_files plain_organizer "fwd_first.pipt".
Proof.
  assert (Ha : read_txt shifted_files plain_organizer "da_first.pipt"
               = Ok (("----", VList [VStr "title"; VStr "run 1"]) :: da_mandatory_values,
                     ("reportpoint", VFloat (fl 10)) :: fwd_mandatory_values))
    by (vm_compute; reflexivity).
  assert (Hb : read_txt shifted_files plain_organizer "fwd_first.pipt"
               = Ok (("title", VStr "run 1") :: da_mandatory_values,
                     ("----", VList [VStr "reportpoint"; VFloat (fl 10)])
                       :: fwd_mandatory_values))
    by (vm_compute; reflexivity).
  split; [exact Ha|]. split; [exact Hb|].
  rewrite Ha, Hb. discriminate.
Qed.

(** ** Where the code and a claim part by design, on concrete inputs *)

(** C4, counterexample.  A leading blank line and two blank lines in a row
    each give an empty block; lines without a blank line give no block at
    all, and the lines after the last blank line are dropped. *)
Lemma C4_empty_and_missing_blocks :
  remove_empty_lines [nl; ln "NE"; ln "100"; nl; nl] = [[]; [ln "NE"; ln "100"]; []] /\
  remove_empty_lines [ln "NE"; ln "100"] = [] /\
  remove_empty_lines [ln "NE"; ln "100"; nl; ln "A"; ln "x"] = [[ln "NE"; ln "100"]].
Proof. repeat split; reflexivity. Qed.

(** C1, counterexample.  The first row of a string matrix comes out of the
    second loop with a number and a string side by side. *)
Lemma C1_row_partially_converted :
  let r1 := ln ("1" ++ tb ++ "abc")%string in
  let r2 := ln ("x" ++ tb ++ "y")%string in
  classify [r1; r2] = VList [VList [VStr "1"; VStr "abc"]; VList [VStr "x"; VStr "y"]] /\
  parse_keywords [[ln "KW"; r1; r2]]
  = Ok [("kw", VList [VList [VFloat (fl 1); VStr "abc"]; VList [VStr "x"; VStr "y"]])].
Proof. split; vm_compute; reflexivity. Qed.

(** C5, counterexample.  With neither marker in the file the failure is the
    [UnboundLocalError] of the local [ipind]; nothing names a marker, and
    the absent [fwdsim] marker is not reported at all. *)
Lemma C5_no_marker_is_unbound_local :
  read_lines plain_organizer [ln "NE"; ln "100"; nl] = Err (UnboundLocalError "ipind").
Proof. reflexivity. Qed.

(** C9, counterexample.  The second loop turns the string vector of this
    block into a list that starts with a list and goes on with a float; run
    once more on its own result it raises [TypeError]. *)
Lemma C9_second_pass_raises :
  let once := [("kw", VList [float_vector [fl 1; fl 2]; VFloat (fl 3); VStr "x"])] in
  classify_blocks [[ln "KW"; ln "1 2"; ln "3"; ln "x"]]
  = [("kw", VList [VStr "1 2"; VStr "3"; VStr "x"])] /\
  parse_keywords [[ln "KW"; ln "1 2"; ln "3"; ln "x"]] = Ok once /\
  repair_pass once = Err TypeError.
Proof. repeat split; vm_compute; reflexivity. Qed.

(** C10, counterexample.  The key is the whole first line, stripped and
    lowercased, not its first token: two blocks whose first token is [NE]
    are stored under two keys, and [ne] is not bound. *)
Lemma C10_key_is_whole_first_line :
  let blocks := [[ln "NE 1"; ln "5"]; [ln "NE 2"; ln "6"]] in
  map (fun b => lower (hd "" (split (hd "" b)))) blocks = ["ne"; "ne"] /\
  parse_keywords blocks = Ok [("ne 1", VFloat (fl 5)); ("ne 2", VFloat (fl 6))] /\
  (forall keys, parse_keywords blocks = Ok keys -> dict_get "ne" keys = None).
Proof.
  repeat split; try (vm_compute; reflexivity).
  intros keys H. vm_compute in H. injection H as <-. reflexivity.
Qed.

(** ** The loops of the second pass, as maps *)

Section UpdateLoop.

Variable A : Type.

Lemma nth_error_middle (pre : list A) (x : A) (post : list A) :
  nth_error (pre ++ x :: post) (List.length pre) = Some x.
Proof. induction pre; simpl; auto. Qed.

Lemma list_set_middle (pre : list A) (x y : A) (post : list A) :
  list_set (List.length pre) y (pre ++ x :: post) = pre ++ y :: post.
Proof. induction pre; simpl; congruence. Qed.

Variable f : A -> A.

Lemma update_loop_from (todo done : list A) :
  fold_left (update_step f) (seq (List.length done) (List.length todo)) (done ++ todo)
  = done ++ map f todo.
Proof.
  revert done. induction todo as [|x todo IH]; intros done; simpl.
  - reflexivity.
  - unfold update_step at 2. rewrite nth_error_middle, list_set_middle.
    specialize (IH (done ++ [f x])).
    rewrite length_app in IH. simpl in IH. rewrite Nat.add_1_r in IH.
    rewrite <- !app_assoc in IH. exact IH.
Qed.

Lemma update_loop (l : list A) :
  fold_left (update_step f) (seq 0 (List.length l)) l = map f l.
Proof. exact (update_loop_from l []). Qed.

End UpdateLoop.

Lemma repair_entries_map (l : list value) :
  repair_entries l = map repair_entry l.
Proof. apply update_loop. Qed.

Lemma rows_step_err (e : exn) (js : list nat) :
  fold_left rows_step js (Err e) = Err e.
Proof. induction js; simpl; auto. Qed.

Lemma repair_rows_from (todo done : list value) :
  fold_left rows_step (seq (List.length done) (List.length todo)) (Ok (done ++ todo))
  = (ts <- map_result repair_row todo ;; Ok (done ++ ts)).
Proof.
  revert done. induction todo as [|x todo IH]; intros done; simpl.
  - reflexivity.
  - rewrite nth_error_middle.
    destruct (repair_row x) as [x'|e]; simpl.
    + rewrite list_set_middle.
      specialize (IH (done ++ [x'])).
      rewrite length_app in IH. simpl in IH. rewrite Nat.add_1_r in IH.
      rewrite <- !app_assoc in IH. simpl in IH. rewrite IH.
      destruct (map_result repair_row todo); simpl; [rewrite <- app_assoc|]; reflexivity.
    + apply rows_step_err.
Qed.

Lemma repair_rows_map (rows : list value) :
  repair_rows rows = map_result repair_row rows.
Proof.
  transitivity (ts <- map_result repair_row rows ;; Ok ([] ++ ts)).
  - exact (repair_rows_from rows []).
  - destruct (map_result repair_row rows); reflexivity.
Qed.

(** ** [float] accepts one token only *)

Lemma lex_char_space (c : ascii) : is_space c = true -> lex_char c = None.
Proof.
  destruct c as [[] [] [] [] [] [] [] []]; vm_compute; intros H;
    solve [reflexivity | discriminate H].
Qed.

Lemma lex_no_space (s : string) (l : list fchar) : lex s = Some l -> no_space s = true.
Proof.
  revert l. induction s as [|c s IH]; intros l; simpl; [reflexivity|].
  destruct (is_space c) eqn:Hc.
  - rewrite (lex_char_space c Hc). discriminate.
  - destruct (lex_char c); [|discriminate].
    destruct (lex s) as [l'|]; [|discriminate]. intros _. simpl. eauto.
Qed.

Lemma split_no_space (s : string) :
  no_space s = true -> s <> EmptyString -> split s = [s].
Proof.
  induction s as [|c s IH]; intros Hs Hne; [congruence|].
  simpl in Hs. apply andb_true_iff in Hs as [Hc Hs].
  apply negb_true_iff in Hc. simpl. rewrite Hc.
  destruct s as [|d s']; [reflexivity|].
  assert (Hd : is_space d = false).
  { simpl in Hs. apply andb_true_iff in Hs as [Hd _]. now apply negb_true_iff in Hd. }
  rewrite Hd. rewrite IH by (auto; discriminate). reflexivity.
Qed.

Lemma float_space_is_space (c : ascii) : is_float_space c = true -> is_space c = true.
Proof.
  destruct c as [[] [] [] [] [] [] [] []]; vm_compute; intros H;
    solve [reflexivity | discriminate H].
Qed.

Section Strip.

(** Stripping characters that are white space keeps the tokens. *)
Variable p : ascii -> bool.
Hypothesis p_space : forall c, p c = true -> is_space c = true.

Lemma split_lstrip_by (s : string) : split (lstrip_by p s) = split s.
Proof.
  induction s as [|c s IH]; [reflexivity|].
  cbn [lstrip_by]. destruct (p c) eqn:Hc; [|reflexivity].
  rewrite IH. simpl. now rewrite (p_space Hc).
Qed.

End Strip.

Lemma split_lstrip (s : string) : split (lstrip_by is_space s) = split s.
Proof. apply split_lstrip_by. auto. Qed.

Lemma rstrip_head (p : ascii -> bool) (c : ascii) (s : string) :
  rstrip_by p (String c s) = EmptyString /\ p c = true \/
  exists r, rstrip_by p (String c s) = String c r.
Proof.
  simpl. destruct (rstrip_by p s).
  - destruct (p c); [left; auto | right; eauto].
  - right; eauto.
Qed.

Lemma split_cons (c : ascii) (s : string) :
  split (String c s) =
  if is_space c then split s
  else match s with
       | EmptyString => [String c EmptyString]
       | String d _ =>
           if is_space d then String c EmptyString :: split s
           else match split s with
                | t :: ts => String c t :: ts
                | [] => [String c EmptyString]
                end
       end.
Proof. reflexivity. Qed.

Lemma split_rstrip_by (p : ascii -> bool) (s : string) :
  (forall c, p c = true -> is_space c = true) ->
  split (rstrip_by p s) = split s.
Proof.
  intros p_space. induction s as [|c s IH]; [reflexivity|].
  cbn [rstrip_by].
  destruct (rstrip_by p s) as [|e r] eqn:Hr.
  - (* the rest is white space only *)
    assert (Hs : split s = []) by (rewrite <- IH; reflexivity).
    destruct (p c) eqn:Hc.
    + rewrite (split_cons c s), (p_space c Hc), Hs. reflexivity.
    + rewrite (split_cons c s), Hs, (split_cons c EmptyString).
      destruct (is_space c); [reflexivity|].
      destruct s as [|d s']; [reflexivity|].
      destruct (rstrip_head p d s') as [[_ Hd]|[r' Hr']]; [|congruence].
      now rewrite (p_space d Hd).
  - destruct s as [|d s']; [discriminate|].
    destruct (rstrip_head p d s') as [[H0 _]|[r' Hr']]; [congruence|].
    assert (e = d) by congruence. subst e.
    rewrite (split_cons c (String d r)), (split_cons c (String d s')), IH.
    reflexivity.
Qed.

Lemma split_rstrip (s : string) : split (rstrip_by is_space s) = split s.
Proof. apply split_rstrip_by. auto. Qed.

Lemma split_strip (s : string) : split (strip s) = split s.
Proof. unfold strip. now rewrite split_rstrip, split_lstrip. Qed.

Lemma parse_float_nil : parse_float [] = None.
Proof. reflexivity. Qed.

Lemma split_float_strip (s : string) : split (float_strip s) = split s.
Proof.
  unfold float_strip.
  now rewrite split_rstrip_by, split_lstrip_by by apply float_space_is_space.
Qed.

Lemma float_literal (s : string) (f : pyfloat) :
  float s = Some f -> no_space (float_strip s) = true /\ float_strip s <> EmptyString.
Proof.
  unfold float. destruct (lex (float_strip s)) as [l|] eqn:Hl; [|discriminate].
  intros Hf. split; [eapply lex_no_space; eauto|].
  intros E. rewrite E in Hl. simpl in Hl. injection Hl as <-.
  rewrite parse_float_nil in Hf. discriminate.
Qed.

Lemma float_single_token (s : string) (f : pyfloat) :
  float s = Some f -> split s = [float_strip s].
Proof.
  intros Hf. destruct (float_literal s Hf) as [Hn He].
  rewrite <- split_float_strip. now apply split_no_space.
Qed.

Lemma floats_length (xs : list string) (fs : list pyfloat) :
  floats xs = Some fs -> List.length fs = List.length xs.
Proof.
  revert fs. induction xs as [|x xs IH]; intros fs; simpl.
  - now intros [= <-].
  - destruct (float x); [|discriminate].
    destruct (floats xs); [|discriminate].
    intros [= <-]. simpl. f_equal. auto.
Qed.

(** ** Numeric vectors on one line (C8) *)

Lemma repair_float_vector (fs : list pyfloat) :
  fs <> [] -> repair_value (float_vector fs) = Ok (float_vector fs).
Proof. destruct fs as [|f fs]; [congruence|reflexivity]. Qed.

Lemma classify_single_line_vector (line : string) (fs : list pyfloat) :
  2 <= List.length (split line) ->
  floats (split line) = Some fs ->
  classify [line] = float_vector fs.
Proof.
  intros Hlen Hfs. unfold classify, try_float_1d, try_float_2d.
  cbn [List.length nth Nat.eqb andb].
  destruct (List.length (split line) =? 1) eqn:E.
  { apply Nat.eqb_eq in E. lia. }
  cbn [floats].
  destruct (float line) as [f|] eqn:Hf.
  { apply float_single_token in Hf. rewrite Hf in Hlen. simpl in Hlen. lia. }
  simpl. now rewrite Hfs.
Qed.

Lemma floats_pointwise (xs : list string) (fs : list pyfloat) :
  Forall2 (fun x f => float x = Some f) xs fs -> floats xs = Some fs.
Proof.
  induction 1 as [|x f xs fs Hx _ IH]; [reflexivity|].
  cbn [floats]. now rewrite Hx, IH.
Qed.

(** C8.  A block with one payload line of two or more whitespace-separated
    tokens, each of which [float] converts, is parsed to the flat list of
    the converted tokens in the order of the line: not a scalar, and not a
    matrix of one row. *)
Theorem C8_single_line_numeric_vector (kw line : string) (fs : list pyfloat) :
  2 <= List.length (split line) ->
  Forall2 (fun token f => float token = Some f) (split line) fs ->
  parse_keywords [[kw; line]] = Ok [(lower (strip kw), VList (map VFloat fs))].
Proof.
  intros Hlen Htok. apply floats_pointwise in Htok.
  unfold parse_keywords, classify_blocks. cbn [fold_left store_block].
  rewrite (classify_single_line_vector line Hlen Htok).
  cbn [dict_set repair_pass].
  rewrite repair_float_vector; [reflexivity|].
  intros ->. apply floats_length in Htok. simpl in Htok. lia.
Qed.

Lemma C8_witness :
  parse_keywords [[ln "DEPTH"; ln "1 2 3"]]
  = Ok [("depth", VList [VFloat (fl 1); VFloat (fl 2); VFloat (fl 3)])].
Proof.
  apply (@C8_single_line_numeric_vector (ln "DEPTH") (ln "1 2 3") [fl 1; fl 2; fl 3]).
  - vm_compute. lia.
  - change (split (ln "1 2 3")) with ["1"; "2"; "3"].
    repeat constructor; vm_compute; reflexivity.
Defined.

(** ** Rows of a string matrix (C1) *)

Lemma as_strings_matrix (payload : list string) :
  List.length payload <> 1 -> one_column payload = false ->
  as_strings payload
  = string_matrix
      (map (fun col => map (fun x => lower (rstrip_nl x))
                           (filter nonempty (split_on tab col))) payload).
Proof.
  intros Hlen Hcol. unfold as_strings, string_matrix, str_fields.
  apply Nat.eqb_neq in Hlen. rewrite Hlen, Hcol, map_map. f_equal.
  apply map_ext. intros col. now rewrite map_map.
Qed.

Lemma forallb_is_str_map (r : list string) : forallb is_str (map VStr r) = true.
Proof. induction r; simpl; auto. Qed.

Lemma repair_string_rows (rows : list (list string)) :
  map_result repair_row (map (fun r => VList (map VStr r)) rows)
  = Ok (map (fun r => VList (map (fun s => repair_entry (VStr s)) r)) rows).
Proof.
  induction rows as [|r rows IH]; [reflexivity|].
  cbn [map map_result repair_row]. rewrite forallb_is_str_map, repair_entries_map.
  cbn [bind]. rewrite IH. cbn [bind]. now rewrite map_map.
Qed.

Lemma repair_string_matrix (rows : list (list string)) :
  rows <> [] ->
  repair_value (string_matrix rows)
  = Ok (VList (map (fun r => VList (map (fun s => repair_entry (VStr s)) r)) rows)).
Proof.
  intros Hne. destruct rows as [|r rows]; [congruence|].
  unfold string_matrix, repair_value.
  cbn [map nth_error]. rewrite repair_rows_map.
  change (VList (map VStr r) :: map (fun r0 => VList (map VStr r0)) rows)
    with (map (fun r0 => VList (map VStr r0)) (r :: rows)).
  rewrite repair_string_rows. reflexivity.
Qed.

(** What lines 186-192 and 196-202 leave in the place of the string [s]. *)
Lemma repair_entry_of_string (s : string) :
  match float s with
  | Some f => repair_entry (VStr s) = VFloat f
  | None =>
      match floats (split s) with
      | Some fs => repair_entry (VStr s) = VList (map VFloat fs)
      | None => repair_entry (VStr s) = VStr s
      end
  end.
Proof.
  cbn [repair_entry]. destruct (float s); [reflexivity|].
  destruct (floats (split s)); reflexivity.
Qed.

Lemma repair_entries_of_strings (ss : list string) :
  Forall2 (fun s e =>
             match float s with
             | Some f => e = VFloat f
             | None =>
                 match floats (split s) with
                 | Some fs => e = VList (map VFloat fs)
                 | None => e = VStr s
                 end
             end)
          ss (map (fun s => repair_entry (VStr s)) ss).
Proof.
  induction ss as [|s ss IH]; cbn [map]; constructor; [|exact IH].
  exact (repair_entry_of_string s).
Qed.

(** C1, as the code has it.  The second loop of [parse_keywords] repairs a
    string matrix entry by entry, every row on its own.  The result has the
    rows and the entries of the matrix in their places; an entry [float]
    accepts has become that number, an entry [float] rejects whose
    whitespace-separated tokens all convert has become the list of those
    numbers, and any other entry is the string it was. *)
Theorem C1_rows_repaired_entrywise (rows : list (list string)) :
  rows <> [] ->
  exists repaired : list (list value),
    repair_value (string_matrix rows) = Ok (VList (map VList repaired)) /\
    Forall2
      (Forall2 (fun s e =>
                  match float s with
                  | Some f => e = VFloat f
                  | None =>
                      match floats (split s) with
                      | Some fs => e = VList (map VFloat fs)
                      | None => e = VStr s
                      end
                  end))
      rows repaired.
Proof.
  intros Hne. exists (map (map (fun s => repair_entry (VStr s))) rows). split.
  - rewrite (repair_string_matrix Hne), map_map. reflexivity.
  - clear Hne. induction rows as [|r rows IH]; cbn [map]; constructor; [|exact IH].
    apply repair_entries_of_strings.
Qed.

Lemma C1_witness :
  exists repaired : list (list value),
    repair_value (string_matrix [["1"; "abc"; "2 3"]; ["x"; "y"]])
    = Ok (VList (map VList repaired)) /\
    Forall2
      (Forall2 (fun s e =>
                  match float s with
                  | Some f => e = VFloat f
                  | None =>
                      match floats (split s) with
                      | Some fs => e = VList (map VFloat fs)
                      | None => e = VStr s
                      end
                  end))
      [["1"; "abc"; "2 3"]; ["x"; "y"]] repaired.
Proof.
  apply (@C1_rows_repaired_entrywise [["1"; "abc"; "2 3"]; ["x"; "y"]]).
  discriminate.
Defined.

(** ** The section markers (C5) *)

Lemma find_markers_from (todo done : list string) (m : markers) :
  fold_left (scan_line (done ++ todo)) (seq (List.length done) (List.length todo)) m
  = scan_from (List.length done) todo m.
Proof.
  revert done m. induction todo as [|l todo IH]; intros done m; [reflexivity|].
  cbn [List.length seq fold_left scan_from]. unfold scan_line at 2.
  rewrite app_nth2, Nat.sub_diag by lia. cbn [nth].
  specialize (IH (done ++ [l]) (scan l (List.length done) m)).
  rewrite <- app_assoc, length_app, Nat.add_1_r in IH. exact IH.
Qed.

Lemma find_markers_scan (lines : list string) :
  find_markers lines = scan_from 0 lines (Markers None None None).
Proof. exact (find_markers_from lines [] _). Qed.

Lemma scan_from_app (a b : list string) (i : nat) (m : markers) :
  scan_from i (a ++ b) m = scan_from (i + List.length a) b (scan_from i a m).
Proof.
  revert i m. induction a as [|l a IH]; intros i m; simpl.
  - now rewrite Nat.add_0_r.
  - rewrite IH. f_equal. lia.
Qed.

Lemma scan_from_no_ip (ls : list string) (i : nat) (m : markers) :
  forallb (fun l => negb (is_ip_marker l)) ls = true ->
  ipind (scan_from i ls m) = ipind m /\ ip_part (scan_from i ls m) = ip_part m.
Proof.
  revert i m. induction ls as [|l ls IH]; intros i m H; [auto|].
  simpl in H. apply andb_true_iff in H as [Hl H]. apply negb_true_iff in Hl.
  simpl. destruct (IH (S i) (scan l i m) H) as [-> ->].
  unfold scan. rewrite Hl. destruct (is_fwd_marker l); auto.
Qed.

Lemma scan_from_no_fwd (ls : list string) (i : nat) (m : markers) :
  forallb (fun l => negb (is_fwd_marker l)) ls = true ->
  fwdsimind (scan_from i ls m) = fwdsimind m.
Proof.
  revert i m. induction ls as [|l ls IH]; intros i m H; [auto|].
  simpl in H. apply andb_true_iff in H as [Hl H]. apply negb_true_iff in Hl.
  simpl. rewrite (IH (S i) (scan l i m) H).
  unfold scan. rewrite Hl. destruct (is_ip_marker l); auto.
Qed.

Lemma scan_from_some_ip (ls : list string) (i : nat) (m : markers) :
  existsb is_ip_marker ls = true -> ipind (scan_from i ls m) <> None.
Proof.
  revert i m. induction ls as [|l ls IH]; intros i m H; [discriminate|].
  simpl in H. simpl.
  destruct (existsb is_ip_marker ls) eqn:E; [now apply IH|].
  rewrite orb_false_r in H.
  assert (Hn : forallb (fun l => negb (is_ip_marker l)) ls = true).
  { apply forallb_forall. intros x Hx. apply negb_true_iff.
    destruct (is_ip_marker x) eqn:Ex; [|reflexivity].
    assert (existsb is_ip_marker ls = true) by (apply existsb_exists; eauto). congruence. }
  destruct (scan_from_no_ip ls (S i) (scan l i m) Hn) as [-> _].
  unfold scan. rewrite H. discriminate.
Qed.

(** C5, as the code has it.  When the [fwdsim] marker or the
    [dataassim]/[optim] marker is absent from the cleaned lines, [read_txt]
    stops at the comparison of line 39 with the [UnboundLocalError] of the
    index that was never assigned -- [ipind] when no [dataassim]/[optim]
    line exists, [fwdsimind] otherwise -- and returns no dictionaries. *)
Theorem C5_missing_marker_unbound_local (Organize_input : organizer) (lines : list string) :
  forallb (fun l => negb (is_ip_marker l)) lines = true \/
  forallb (fun l => negb (is_fwd_marker l)) lines = true ->
  read_lines Organize_input lines
  = Err (UnboundLocalError (if existsb is_ip_marker lines then "fwdsimind" else "ipind")).
Proof.
  intros H. unfold read_lines. rewrite find_markers_scan.
  destruct (existsb is_ip_marker lines) eqn:E.
  - destruct H as [H|H].
    + exfalso. apply existsb_exists in E as [x [Hx Ex]].
      rewrite forallb_forall in H. specialize (H x Hx). rewrite Ex in H. discriminate.
    + pose proof (scan_from_some_ip lines 0 (Markers None None None) E) as Hi.
      pose proof (scan_from_no_fwd lines 0 (Markers None None None) H) as Hf.
      destruct (ipind _); [|congruence]. cbn [local bind].
      rewrite Hf. reflexivity.
  - assert (Hn : forallb (fun l => negb (is_ip_marker l)) lines = true).
    { apply forallb_forall. intros x Hx. apply negb_true_iff.
      destruct (is_ip_marker x) eqn:Ex; [|reflexivity].
      assert (existsb is_ip_marker lines = true) by (apply existsb_exists; eauto).
      congruence. }
    destruct (scan_from_no_ip lines 0 (Markers None None None) Hn) as [-> _].
    reflexivity.
Qed.

Lemma C5_witness :
  read_lines plain_organizer [ln "DATAASSIM"; ln "-"; ln "NE"; ln "100"; nl]
  = Err (UnboundLocalError "fwdsimind").
Proof.
  apply (C5_missing_marker_unbound_local plain_organizer
           [ln "DATAASSIM"; ln "-"; ln "NE"; ln "100"; nl]).
  right. vm_compute. reflexivity.
Defined.

(** ** The order of the two sections *)

Lemma scan_from_no_marker (ls : list string) (i : nat) (m : markers) :
  forallb no_marker ls = true -> scan_from i ls m = m.
Proof.
  revert i m. induction ls as [|l ls IH]; intros i m H; [reflexivity|].
  simpl in H. apply andb_true_iff in H as [Hl H].
  unfold no_marker in Hl. apply andb_true_iff in Hl as [H1 H2].
  apply negb_true_iff in H1, H2.
  simpl. rewrite IH by assumption. unfold scan. now rewrite H1, H2.
Qed.

Lemma fwd_marker_not_ip (l : string) : is_fwd_marker l = true -> is_ip_marker l = false.
Proof.
  unfold is_fwd_marker, is_ip_marker. intros H. apply String.eqb_eq in H.
  rewrite H. reflexivity.
Qed.

Lemma markers_da_first (m1 m2 : string) (b1 b2 : list string) :
  is_ip_marker m1 = true -> is_fwd_marker m2 = true ->
  forallb no_marker b1 = true -> forallb no_marker b2 = true ->
  find_markers ((m1 :: b1) ++ m2 :: b2)
  = Markers (Some 0) (Some (marker_text m1)) (Some (S (List.length b1))).
Proof.
  intros H1 H2 Hb1 Hb2. rewrite find_markers_scan.
  cbn [app scan_from]. unfold scan at 1. rewrite H1. cbn [fwdsimind].
  rewrite scan_from_app, (scan_from_no_marker b1 _ _ Hb1).
  cbn [scan_from]. unfold scan at 1.
  rewrite (fwd_marker_not_ip m2 H2), H2. cbn [ipind ip_part].
  now rewrite (scan_from_no_marker b2 _ _ Hb2).
Qed.

Lemma markers_fwd_first (m1 m2 : string) (b1 b2 : list string) :
  is_ip_marker m1 = true -> is_fwd_marker m2 = true ->
  forallb no_marker b1 = true -> forallb no_marker b2 = true ->
  find_markers ((m2 :: b2) ++ m1 :: b1)
  = Markers (Some (S (List.length b2))) (Some (marker_text m1)) (Some 0).
Proof.
  intros H1 H2 Hb1 Hb2. rewrite find_markers_scan.
  cbn [app scan_from]. unfold scan at 1.
  rewrite (fwd_marker_not_ip m2 H2), H2. cbn [ipind ip_part].
  rewrite scan_from_app, (scan_from_no_marker b2 _ _ Hb2).
  cbn [scan_from]. unfold scan at 1. rewrite H1. cbn [fwdsimind].
  now rewrite (scan_from_no_marker b1 _ _ Hb1).
Qed.

Section Slices.

Variable A : Type.
Variables first second : list A.

Lemma slice_first_section :
  slice 2 (List.length first) (first ++ second) = skipn 2 first.
Proof.
  unfold slice. rewrite firstn_app, Nat.sub_diag, firstn_all. cbn [firstn].
  now rewrite app_nil_r.
Qed.

Lemma slice_second_section :
  slice_from (List.length first + 2) (first ++ second) = skipn 2 second.
Proof.
  unfold slice_from. rewrite Nat.add_comm, <- skipn_skipn.
  rewrite skipn_app, Nat.sub_diag, skipn_all. reflexivity.
Qed.

End Slices.

(** Lines 40-54 for the two orders: the same section bodies reach the
    parser. *)
Lemma read_lines_either_order (Organize_input : organizer)
      (m1 m2 : string) (b1 b2 : list string) :
  is_ip_marker m1 = true -> is_fwd_marker m2 = true ->
  forallb no_marker b1 = true -> forallb no_marker b2 = true ->
  read_lines Organize_input ((m1 :: b1) ++ m2 :: b2)
  = read_lines Organize_input ((m2 :: b2) ++ m1 :: b1).
Proof.
  intros H1 H2 Hb1 Hb2. unfold read_lines.
  rewrite (markers_da_first m1 m2 b1 b2 H1 H2 Hb1 Hb2).
  rewrite (markers_fwd_first m1 m2 b1 b2 H1 H2 Hb1 Hb2).
  cbn [ipind fwdsimind ip_part local bind].
  change (0 <? S (List.length b1)) with true.
  change (S (List.length b2) <? 0) with false.
  cbv iota.
  change (S (List.length b1)) with (List.length (m1 :: b1)).
  change (S (List.length b2)) with (List.length (m2 :: b2)).
  now rewrite !slice_first_section, !slice_second_section.
Qed.

Lemma marker_text_comment (s : string) :
  exists t, marker_text (String "#" s) = String "#" t.
Proof.
  unfold marker_text, strip. cbn [lstrip_by].
  change (is_space "#") with false. cbv iota.
  destruct (rstrip_head is_space "#" s) as [[_ H]|[r Hr]]; [discriminate H|].
  rewrite Hr. simpl. eauto.
Qed.

Lemma ip_marker_kept (l : string) : is_ip_marker l = true -> keep_line l = true.
Proof.
  unfold keep_line, startswith. destruct l as [|c l]; [reflexivity|].
  cbn [prefix]. destruct (ascii_dec "#" c) as [<-|]; [|reflexivity].
  unfold is_ip_marker. destruct (marker_text_comment l) as [t ->]. discriminate.
Qed.

Lemma fwd_marker_kept (l : string) : is_fwd_marker l = true -> keep_line l = true.
Proof.
  unfold keep_line, startswith. destruct l as [|c l]; [reflexivity|].
  cbn [prefix]. destruct (ascii_dec "#" c) as [<-|]; [|reflexivity].
  unfold is_fwd_marker. destruct (marker_text_comment l) as [t ->]. discriminate.
Qed.

Lemma no_marker_filter (keep : string -> bool) (ls : list string) :
  forallb no_marker ls = true -> forallb no_marker (filter keep ls) = true.
Proof.
  rewrite !forallb_forall. intros H x Hx. apply filter_In in Hx as [Hx _]. auto.
Qed.

(** When the first marker is the first line that is no comment, two files
    that hold the same two sections, one with the assimilation (or
    optimization) section first and one with the forward-simulation section
    first, give the same outcome: the same pair of dictionaries, or the same
    exception.  A section is its marker line followed by lines that are not
    marker lines. *)
Lemma sections_swap_when_marker_first
        (fs : filesystem) (Organize_input : organizer) (file_a file_b : string)
        (m_da m_fwd : string) (body_da body_fwd : list string) :
  endswith ".pipt" file_a = true ->
  endswith ".pipt" file_b = true ->
  is_ip_marker m_da = true ->
  is_fwd_marker m_fwd = true ->
  forallb no_marker body_da = true ->
  forallb no_marker body_fwd = true ->
  fs file_a = Some ((m_da :: body_da) ++ (m_fwd :: body_fwd)) ->
  fs file_b = Some ((m_fwd :: body_fwd) ++ (m_da :: body_da)) ->
  read_txt fs Organize_input file_a = read_txt fs Organize_input file_b.
Proof.
  intros Ha Hb H1 H2 Hb1 Hb2 Fa Fb. unfold read_txt, read_clean_file.
  rewrite Ha, Hb, Fa, Fb. cbn [negb bind].
  rewrite !filter_app. cbn [filter].
  rewrite (ip_marker_kept m_da H1), (fwd_marker_kept m_fwd H2).
  apply read_lines_either_order; auto using no_marker_filter.
Qed.

Lemma sections_swap_example :
  read_txt two_files plain_organizer "da_first.pipt"
  = read_txt two_files plain_organizer "fwd_first.pipt" /\
  read_txt two_files plain_organizer "fwd_first.pipt"
  = Ok ([("ne", VFloat (fl 100));
         ("truedataindex", float_vector [fl 1; fl 2; fl 3]);
         ("assimindex", float_vector [fl 1; fl 2]);
         ("truedata", VStr "obs.npz"); ("staticvar", VStr "permx");
         ("datavar", VStr "var.npz"); ("obsname", VStr "days");
         ("energy", VFloat (fl 98))],
        [("simulator", VList [VStr "eclipse"; VStr "flow"]);
         ("parallel", VFloat (fl 4));
         ("datatype", VList [VStr "wopr"; VStr "wwpr"])]).
Proof.
  split.
  - apply (@sections_swap_when_marker_first two_files plain_organizer
             "da_first.pipt" "fwd_first.pipt"
             (ln "DATAASSIM") (ln " FwdSim ") (tl pipt_da_section) (tl pipt_fwd_section));
      vm_compute; reflexivity.
  - vm_compute. reflexivity.
Defined.

(** ** Running the second loop again (C9) *)

Lemma repair_entry_str (x : value) :
  is_str (repair_entry x) = true -> repair_entry x = x.
Proof.
  destruct x as [f|s|l]; simpl; auto.
  destruct (float s); [discriminate|].
  destruct (floats (split s)); [discriminate|reflexivity].
Qed.

Lemma repair_entries_settled (l : list value) :
  forallb is_str (map repair_entry l) = true -> map repair_entry l = l.
Proof.
  induction l as [|x l IH]; [reflexivity|].
  simpl. intros H. apply andb_true_iff in H as [Hx Hl].
  now rewrite (repair_entry_str x Hx), IH.
Qed.

Lemma repair_row_again (r r1 : value) :
  repair_row r = Ok r1 -> repair_row r1 = Ok r1 /\ is_float r1 = false.
Proof.
  destruct r as [f|s|x]; cbn [repair_row]; [discriminate|now intros [= <-]|].
  intros [= <-].
  destruct (forallb is_str x) eqn:Hx; cbn [repair_row is_float].
  - rewrite !repair_entries_map. split; [|reflexivity].
    destruct (forallb is_str (map repair_entry x)) eqn:H1; [|reflexivity].
    now rewrite !(repair_entries_settled x H1).
  - now rewrite Hx.
Qed.

Lemma repair_rows_again (l l1 : list value) :
  map_result repair_row l = Ok l1 ->
  map_result repair_row l1 = Ok l1 /\ existsb is_float l1 = false.
Proof.
  revert l1. induction l as [|r l IH]; intros l1; simpl.
  - now intros [= <-].
  - destruct (repair_row r) as [r1|] eqn:Hr; [|discriminate]. simpl.
    destruct (map_result repair_row l) as [l'|]; [|discriminate]. simpl.
    intros [= <-]. destruct (repair_row_again r Hr) as [H1 H2].
    destruct (IH l' eq_refl) as [H3 H4].
    simpl. rewrite H1, H2, H4. simpl. now rewrite H3.
Qed.

Lemma repair_row_float_vector (fs : list pyfloat) :
  repair_row (float_vector fs) = Ok (float_vector fs).
Proof. destruct fs; reflexivity. Qed.

(** The rows of a repaired string vector, taken as rows of a matrix. *)
Lemma repair_rows_of_entries (l : list value) :
  forallb is_str l = true ->
  map_result repair_row (map repair_entry l)
  = if existsb is_float (map repair_entry l) then Err TypeError
    else Ok (map repair_entry l).
Proof.
  induction l as [|x l IH]; [reflexivity|].
  simpl. intros H. apply andb_true_iff in H as [Hx Hl].
  destruct x as [f|s|y]; try discriminate. simpl.
  destruct (float s) as [f|]; [reflexivity|].
  destruct (floats (split s)) as [fs|].
  - rewrite repair_row_float_vector. simpl. rewrite (IH Hl).
    destruct (existsb is_float (map repair_entry l)); reflexivity.
  - simpl. rewrite (IH Hl).
    destruct (existsb is_float (map repair_entry l)); reflexivity.
Qed.

Lemma repair_entry_cases (s : string) :
  (exists f, repair_entry (VStr s) = VFloat f) \/
  (exists fs, repair_entry (VStr s) = float_vector fs) \/
  repair_entry (VStr s) = VStr s.
Proof.
  simpl. destruct (float s); [eauto|].
  destruct (floats (split s)); eauto.
Qed.

Lemma repair_value_again (v v1 : value) :
  repair_value v = Ok v1 ->
  repair_value v1 = if float_beside_list v1 then Err TypeError else Ok v1.
Proof.
  destruct v as [f|s|l]; try (intros [= <-]; reflexivity).
  unfold repair_value at 1.
  destruct l as [|h l]; [discriminate|]. cbn [nth_error].
  destruct h as [f|s|hl].
  - (* a vector that starts with a float *)
    intros [= <-]. reflexivity.
  - (* a vector that starts with a string *)
    intros [= <-]. rewrite repair_entries_map.
    destruct (forallb is_str l) eqn:Hl;
      [|cbn [repair_value nth_error float_beside_list forallb is_str andb]; now rewrite Hl].
    assert (Hall : forallb is_str (VStr s :: l) = true) by exact Hl.
    pose proof (repair_rows_of_entries (VStr s :: l) Hall) as Hrows.
    pose proof (repair_entries_settled (VStr s :: l)) as Hset.
    cbn [map] in *.
    destruct (repair_entry_cases s) as [[f E]|[[fs E]|E]]; rewrite E in *.
    + reflexivity.
    + cbn [repair_value nth_error float_vector]. fold (float_vector fs).
      rewrite repair_rows_map, Hrows.
      cbn [existsb is_float float_vector orb float_beside_list].
      destruct (existsb is_float (map repair_entry l)); reflexivity.
    + cbn [repair_value nth_error float_beside_list]. rewrite repair_entries_map.
      destruct (forallb is_str (VStr s :: map repair_entry l)) eqn:H1; [|reflexivity].
      specialize (Hset eq_refl). injection Hset as Hset.
      cbn [map]. now rewrite E, !Hset.
  - (* a matrix *)
    rewrite repair_rows_map.
    destruct (map_result repair_row (VList hl :: l)) as [l1|] eqn:Hl; [|discriminate].
    intros [= <-].
    destruct (repair_rows_again _ Hl) as [H1 H2].
    cbn [map_result] in Hl.
    destruct (repair_row (VList hl)) as [r1|] eqn:Hr; [|discriminate].
    cbn [bind] in Hl. destruct (map_result repair_row l) as [l'|]; [|discriminate].
    injection Hl as <-. simpl in Hr. injection Hr as <-.
    assert (Hhead : exists y, (if forallb is_str hl then VList (repair_entries hl) else VList hl) = VList y)
      by (destruct (forallb is_str hl); eauto).
    destruct Hhead as [y Hy]. rewrite Hy in *.
    cbn [repair_value nth_error float_beside_list].
    rewrite repair_rows_map, H1. cbn [bind].
    cbn [existsb is_float orb] in H2. now rewrite H2.
Qed.

(** C9, as the code has it.  When the second loop of [parse_keywords] has
    completed on a mapping, running it once more on the result either
    returns that result unchanged or raises [TypeError]; it raises exactly
    when some value of the result is a list that starts with a list and
    holds a float further on (a string vector whose first entry was a run of
    numbers and which had a single number among its other entries). *)
Theorem C9_second_pass_unchanged_or_type_error (keys once : dict) :
  repair_pass keys = Ok once ->
  repair_pass once
  = if existsb (fun kv => float_beside_list (snd kv)) once then Err TypeError
    else Ok once.
Proof.
  revert once. induction keys as [|[k v] keys IH]; intros once; simpl.
  - now intros [= <-].
  - destruct (repair_value v) as [v1|] eqn:Hv; [|discriminate]. simpl.
    destruct (repair_pass keys) as [rest|]; [|discriminate]. simpl.
    intros [= <-]. simpl.
    rewrite (repair_value_again v Hv).
    destruct (float_beside_list v1); [reflexivity|]. simpl.
    rewrite (IH rest eq_refl).
    destruct (existsb _ rest); reflexivity.
Qed.

Lemma C9_witness :
  let keys := [("obsname", VList [VStr "days"; VStr "1 2"; VStr "3"]);
               ("names", VList [VList [VStr "a"; VStr "7"]; VList [VStr "8"; VStr "9"]]);
               ("ne", VFloat (fl 100))] in
  let once := [("obsname", VList [VStr "days"; float_vector [fl 1; fl 2]; VFloat (fl 3)]);
               ("names", VList [VList [VStr "a"; VFloat (fl 7)];
                                VList [VFloat (fl 8); VFloat (fl 9)]]);
               ("ne", VFloat (fl 100))] in
  repair_pass keys = Ok once /\ repair_pass once = Ok once.
Proof.
  intros keys once.
  assert (H : repair_pass keys = Ok once) by (vm_compute; reflexivity).
  split; [exact H|].
  exact (C9_second_pass_unchanged_or_type_error keys H).
Defined.

(** ** A keyword given twice (C10) *)

Lemma dict_get_set_same (k : string) (v : value) (d : dict) :
  dict_get k (dict_set k v d) = Some v.
Proof.
  induction d as [|[k' v'] d IH]; simpl.
  - now rewrite String.eqb_refl.
  - destruct (String.eqb k' k) eqn:E; simpl; now rewrite E.
Qed.

Lemma dict_get_set_other (k k' : string) (v : value) (d : dict) :
  k <> k' -> dict_get k (dict_set k' v d) = dict_get k d.
Proof.
  intros Hne. induction d as [|[k0 v0] d IH]; simpl.
  - apply String.eqb_neq in Hne. rewrite String.eqb_sym in Hne. now rewrite Hne.
  - destruct (String.eqb k0 k') eqn:E; simpl.
    + apply String.eqb_eq in E. subst k0.
      destruct (String.eqb k' k) eqn:E'; [|reflexivity].
      apply String.eqb_eq in E'. congruence.
    + now rewrite IH.
Qed.

Lemma dict_set_keys (k : string) (v : value) (d : dict) :
  dict_keys (dict_set k v d)
  = if in_dec string_dec k (dict_keys d) then dict_keys d else dict_keys d ++ [k].
Proof.
  induction d as [|[k' v'] d IH]; [reflexivity|].
  cbn [dict_set]. destruct (String.eqb k' k) eqn:E.
  - apply String.eqb_eq in E. subst k'.
    destruct (in_dec string_dec k (dict_keys ((k, v') :: d))) as [_|n]; [reflexivity|].
    exfalso. apply n. now left.
  - apply String.eqb_neq in E. unfold dict_keys in *. cbn [map fst]. rewrite IH.
    destruct (in_dec string_dec k (map fst d)) as [i|n];
      destruct (in_dec string_dec k (k' :: map fst d)) as [i'|n']; try reflexivity.
    + exfalso. apply n'. now right.
    + exfalso. destruct i' as [E'|i']; [congruence|contradiction].
Qed.

Lemma dict_set_nodup (k : string) (v : value) (d : dict) :
  NoDup (dict_keys d) -> NoDup (dict_keys (dict_set k v d)).
Proof.
  intros H. rewrite dict_set_keys.
  destruct (in_dec string_dec k (dict_keys d)) as [i|n]; [assumption|].
  apply NoDup_app; [assumption | repeat constructor; auto |].
  intros x Hx [<-|[]]. contradiction.
Qed.

Lemma store_blocks_nodup (blocks : list (list string)) (d : dict) :
  NoDup (dict_keys d) -> NoDup (dict_keys (fold_left store_block blocks d)).
Proof.
  revert d. induction blocks as [|b blocks IH]; intros d H; [assumption|].
  simpl. apply IH. destruct b as [|kw payload]; [assumption|].
  now apply dict_set_nodup.
Qed.

Lemma store_blocks_other (name : string) (blocks : list (list string)) (d : dict) :
  (forall b, In b blocks -> b <> [] -> keyword_of b <> name) ->
  dict_get name (fold_left store_block blocks d) = dict_get name d.
Proof.
  revert d. induction blocks as [|b blocks IH]; intros d H; [reflexivity|].
  simpl. rewrite IH by (intros; apply H; [now right|assumption]).
  destruct b as [|kw payload]; [reflexivity|].
  apply dict_get_set_other. intros E. apply (H (kw :: payload)); [now left|discriminate|auto].
Qed.

Lemma repair_pass_keys (keys keys' : dict) :
  repair_pass keys = Ok keys' -> dict_keys keys' = dict_keys keys.
Proof.
  revert keys'. induction keys as [|[k v] keys IH]; intros keys'; simpl.
  - now intros [= <-].
  - destruct (repair_value v); [|discriminate]. simpl.
    destruct (repair_pass keys) as [rest|]; [|discriminate]. simpl.
    intros [= <-]. simpl. f_equal. now apply IH.
Qed.

Lemma repair_pass_get (keys keys' : dict) (k : string) (v : value) :
  repair_pass keys = Ok keys' -> dict_get k keys = Some v ->
  exists v', repair_value v = Ok v' /\ dict_get k keys' = Some v'.
Proof.
  revert keys'. induction keys as [|[k0 v0] keys IH]; intros keys'; simpl; [discriminate|].
  destruct (repair_value v0) as [v0'|] eqn:Hv0; [|discriminate]. simpl.
  destruct (repair_pass keys) as [rest|]; [|discriminate]. simpl.
  intros [= <-]. simpl. destruct (String.eqb k0 k).
  - intros [= <-]. eauto.
  - intros Hg. now apply IH.
Qed.

Lemma dict_get_in (k : string) (v : value) (d : dict) :
  dict_get k d = Some v -> In k (dict_keys d).
Proof.
  induction d as [|[k0 v0] d IH]; simpl; [discriminate|].
  destruct (String.eqb k0 k) eqn:E; [apply String.eqb_eq in E; auto | auto].
Qed.

(** C10, as the code has it.  The key of a block is its whole first line,
    stripped and lowercased.  When two non-empty blocks have the same key
    and no later block has it, every mapping [parse_keywords] returns binds
    that key once, to the value stored for the later block as the second
    loop leaves it. *)
Theorem C10_last_block_wins
        (before between after : list (list string)) (b1 b2 : list string)
        (name : string) (keys : dict) :
  b1 <> [] -> b2 <> [] ->
  keyword_of b1 = name -> keyword_of b2 = name ->
  (forall b, In b after -> b <> [] -> keyword_of b <> name) ->
  parse_keywords (before ++ b1 :: between ++ b2 :: after) = Ok keys ->
  exists v,
    repair_value (classify (tl b2)) = Ok v /\
    dict_get name keys = Some v /\
    count_occ string_dec (dict_keys keys) name = 1.
Proof.
  intros _ Hb2 _ Hk2 Hafter Hparse. unfold parse_keywords, classify_blocks in Hparse.
  set (blocks := before ++ b1 :: between ++ b2 :: after) in *.
  assert (Hget : dict_get name (fold_left store_block blocks [])
                 = Some (classify (tl b2))).
  { unfold blocks.
    replace (before ++ b1 :: between ++ b2 :: after)
      with ((before ++ b1 :: between) ++ b2 :: after)
      by (rewrite <- app_assoc; reflexivity).
    rewrite fold_left_app. cbn [fold_left].
    rewrite store_blocks_other by assumption.
    destruct b2 as [|kw payload]; [congruence|].
    cbn [store_block tl]. rewrite Hk2. apply dict_get_set_same. }
  destruct (repair_pass_get _ name Hparse Hget) as [v [Hv Hk]].
  exists v. repeat split; auto.
  assert (Hnd : NoDup (dict_keys keys)).
  { rewrite (repair_pass_keys _ Hparse). apply store_blocks_nodup. constructor. }
  pose proof (proj1 (NoDup_count_occ string_dec _) Hnd name) as Hle.
  pose proof (proj1 (count_occ_In string_dec _ name) (dict_get_in _ _ Hk)) as Hgt.
  lia.
Qed.

Lemma C10_witness :
  exists v,
    repair_value (classify (tl [ln "ne"; ln "7 8"])) = Ok v /\
    dict_get "ne" [("ne", float_vector [fl 7; fl 8]); ("obsname", VStr "days")] = Some v /\
    count_occ string_dec
      (dict_keys [("ne", float_vector [fl 7; fl 8]); ("obsname", VStr "days")]) "ne" = 1.
Proof.
  apply (@C10_last_block_wins [] [[ln "OBSNAME"; ln "days"]; []] [[]]
           [ln " NE"; ln "100"] [ln "ne"; ln "7 8"] "ne").
  - discriminate.
  - discriminate.
  - vm_compute. reflexivity.
  - vm_compute. reflexivity.
  - intros b [<-|[]] H. congruence.
  - vm_compute. reflexivity.
Defined.

(** ** Blocks closed by blank lines (C4) *)

Lemma separators_offset (todo done : list string) :
  filter (fun i => String.eqb (nth i (done ++ todo) "") nl)
         (seq (List.length done) (List.length todo))
  = separators_from (List.length done) todo.
Proof.
  revert done. induction todo as [|l todo IH]; intros done; [reflexivity|].
  cbn [List.length seq filter separators_from].
  rewrite app_nth2, Nat.sub_diag by lia. cbn [nth].
  specialize (IH (done ++ [l])).
  rewrite <- app_assoc, length_app, Nat.add_1_r in IH. cbn [app] in IH.
  rewrite IH. reflexivity.
Qed.

Lemma separators_scan (lines : list string) :
  separators lines = separators_from 0 lines.
Proof. exact (separators_offset lines []). Qed.

Section Blocks.

Variable lines : list string.

Lemma blocks_offset (todo done : list nat) (s : nat) :
  map (block_at lines (done ++ s :: todo)) (seq (S (List.length done)) (List.length todo))
  = cut lines (S s) todo.
Proof.
  revert done s. induction todo as [|t todo IH]; intros done s; [reflexivity|].
  cbn [List.length seq map cut]. f_equal.
  - unfold block_at. cbn [Nat.eqb]. rewrite Nat.sub_succ, Nat.sub_0_r.
    rewrite app_nth2, Nat.sub_diag by lia. cbn [nth].
    replace (done ++ s :: t :: todo) with ((done ++ [s]) ++ t :: todo)
      by (rewrite <- app_assoc; reflexivity).
    rewrite app_nth2; rewrite length_app; cbn [List.length]; [|lia].
    rewrite !Nat.add_1_r, Nat.sub_diag. reflexivity.
  - specialize (IH (done ++ [s]) t).
    rewrite <- app_assoc, length_app, Nat.add_1_r in IH. exact IH.
Qed.

Lemma blocks_cut (sep : list nat) :
  map (block_at lines sep) (seq 0 (List.length sep)) = cut lines 0 sep.
Proof.
  destruct sep as [|s sep]; [reflexivity|].
  cbn [List.length seq map cut]. f_equal.
  exact (blocks_offset sep [] s).
Qed.

End Blocks.

Lemma remove_empty_lines_cut (lines : list string) :
  remove_empty_lines lines = cut lines 0 (separators_from 0 lines).
Proof.
  unfold remove_empty_lines. rewrite separators_scan. apply blocks_cut.
Qed.

Lemma separators_segment (seg rest : list string) (off : nat) :
  Forall (fun l => l <> nl) seg ->
  separators_from off (seg ++ nl :: rest)
  = (off + List.length seg) :: separators_from (S (off + List.length seg)) rest.
Proof.
  intros H. revert off. induction H as [|l seg Hl _ IH]; intros off.
  - cbn [app separators_from List.length]. change (String.eqb nl nl) with true.
    now rewrite Nat.add_0_r.
  - cbn [app separators_from List.length].
    apply String.eqb_neq in Hl. rewrite Hl, IH.
    now replace (off + S (List.length seg)) with (S off + List.length seg) by lia.
Qed.

Lemma cut_segments (segs : list (list string)) (done : list string) :
  Forall (Forall (fun l => l <> nl)) segs ->
  cut (done ++ closed_segments segs) (List.length done)
      (separators_from (List.length done) (closed_segments segs))
  = segs.
Proof.
  intros H. revert done. induction H as [|seg segs Hseg _ IH]; intros done; [reflexivity|].
  unfold closed_segments. cbn [flat_map]. fold (closed_segments segs).
  rewrite <- app_assoc. cbn [app].
  rewrite (separators_segment _ _ Hseg). cbn [cut]. f_equal.
  - unfold slice. rewrite <- length_app, app_assoc, firstn_app, Nat.sub_diag, firstn_all.
    cbn [firstn]. rewrite app_nil_r, skipn_app, Nat.sub_diag, skipn_all. reflexivity.
  - specialize (IH (done ++ seg ++ [nl])).
    rewrite !length_app, Nat.add_1_r, Nat.add_succ_r in IH. cbn [List.length] in IH.
    rewrite <- !app_assoc in IH. cbn [app] in IH. exact IH.
Qed.

(** C4, as the code has it.  [remove_empty_lines] closes a block at every
    blank line: on segments of lines that each end with a blank line it
    returns those segments, in order, one block for each blank line.  A
    segment may be empty -- a blank line at the start or right after another
    one -- and then so is its block; [parse_keywords] skips such blocks. *)
Theorem C4_one_block_per_blank_line (segs : list (list string)) :
  Forall (Forall (fun l => l <> nl)) segs ->
  remove_empty_lines (closed_segments segs) = segs.
Proof.
  intros H. rewrite remove_empty_lines_cut. exact (cut_segments [] H).
Qed.

Lemma C4_witness :
  remove_empty_lines [nl; ln "NE"; ln "100"; nl; nl; ln "OBSNAME"; ln "days"; nl]
  = [[]; [ln "NE"; ln "100"]; []; [ln "OBSNAME"; ln "days"]].
Proof.
  apply (@C4_one_block_per_blank_line
           [[]; [ln "NE"; ln "100"]; []; [ln "OBSNAME"; ln "days"]]).
  repeat constructor; discriminate.
Defined.

(** * Further properties of the code *)

(** ** [remove_empty_lines] *)

Lemma separators_none (rest : list string) (off : nat) :
  Forall (fun l => l <> nl) rest -> separators_from off rest = [].
Proof.
  intros H. revert off. induction H as [|l rest Hl _ IH]; intros off; [reflexivity|].
  cbn [separators_from]. apply String.eqb_neq in Hl. now rewrite Hl.
Qed.

Lemma cut_segments_rest (segs : list (list string)) (rest done : list string) :
  Forall (Forall (fun l => l <> nl)) segs ->
  Forall (fun l => l <> nl) rest ->
  cut (done ++ closed_segments segs ++ rest) (List.length done)
      (separators_from (List.length done) (closed_segments segs ++ rest))
  = segs.
Proof.
  intros H Hrest. revert done. induction H as [|seg segs Hseg _ IH]; intros done.
  - cbn [closed_segments flat_map app]. now rewrite separators_none.
  - unfold closed_segments. cbn [flat_map]. fold (closed_segments segs).
    rewrite <- !app_assoc. cbn [app].
    rewrite (separators_segment _ _ Hseg). cbn [cut]. f_equal.
    + unfold slice. rewrite <- length_app, app_assoc, firstn_app, Nat.sub_diag, firstn_all.
      cbn [firstn]. rewrite app_nil_r, skipn_app, Nat.sub_diag, skipn_all. reflexivity.
    + specialize (IH (done ++ seg ++ [nl])).
      rewrite !length_app, Nat.add_1_r, Nat.add_succ_r in IH. cbn [List.length] in IH.
      rewrite <- !app_assoc in IH. cbn [app] in IH. exact IH.
Qed.

(** X1.  [remove_empty_lines] returns the segments that a blank line
    closes and nothing else: the lines that follow the last blank line are
    in no block. *)
Theorem X1_lines_after_last_blank_dropped
        (segs : list (list string)) (rest : list string) :
  Forall (Forall (fun l => l <> nl)) segs ->
  Forall (fun l => l <> nl) rest ->
  remove_empty_lines (closed_segments segs ++ rest) = segs.
Proof.
  intros H Hrest. rewrite remove_empty_lines_cut. exact (cut_segments_rest [] H Hrest).
Qed.

Lemma X1_witness :
  remove_empty_lines [ln "NE"; ln "100"; nl; nl; ln "OBSNAME"; ln "days"]
  = [[ln "NE"; ln "100"]; []].
Proof.
  apply (@X1_lines_after_last_blank_dropped [[ln "NE"; ln "100"]; []]
           [ln "OBSNAME"; ln "days"]);
    repeat constructor; discriminate.
Defined.

Lemma segments_spec (ls : list string) :
  ls = closed_segments (fst (segments ls)) ++ snd (segments ls) /\
  Forall (Forall (fun l => l <> nl)) (fst (segments ls)) /\
  Forall (fun l => l <> nl) (snd (segments ls)).
Proof.
  induction ls as [|l ls IH]; [repeat split; constructor|].
  cbn [segments]. destruct (segments ls) as [segs rest].
  cbn [fst snd] in IH. destruct IH as [E [Hs Hr]].
  destruct (String.eqb l nl) eqn:El.
  - apply String.eqb_eq in El. subst l. cbn [fst snd]. repeat split; auto.
    cbn [closed_segments flat_map app] in *. now f_equal.
  - apply String.eqb_neq in El. destruct segs as [|seg segs]; cbn [fst snd].
    + repeat split; auto. cbn [closed_segments flat_map app] in *. now f_equal.
    + inversion Hs; subst. repeat split; auto.
Qed.

Lemma remove_empty_lines_segments (lines : list string) :
  remove_empty_lines lines = fst (segments lines).
Proof.
  destruct (segments_spec lines) as [E [Hs Hr]].
  rewrite E at 1. rewrite remove_empty_lines_cut.
  exact (cut_segments_rest [] Hs Hr).
Qed.

(** X2.  Whatever the input, no block of [remove_empty_lines] holds a
    blank line, and the blocks, each followed by a blank line, are the input
    up to its last blank line: what is left over holds no blank line. *)
Theorem X2_blocks_rebuild_input (lines : list string) :
  Forall (Forall (fun l => l <> nl)) (remove_empty_lines lines) /\
  exists rest,
    Forall (fun l => l <> nl) rest /\
    lines = closed_segments (remove_empty_lines lines) ++ rest.
Proof.
  rewrite remove_empty_lines_segments.
  destruct (segments_spec lines) as [E [Hs Hr]].
  split; [exact Hs|]. exists (snd (segments lines)). auto.
Qed.

Lemma separators_count (ls : list string) (off : nat) :
  List.length (separators_from off ls) = count_occ string_dec ls nl.
Proof.
  revert off. induction ls as [|l ls IH]; intros off; [reflexivity|].
  cbn [separators_from count_occ].
  destruct (String.eqb l nl) eqn:E.
  - apply String.eqb_eq in E. subst l.
    destruct (string_dec nl nl); [|congruence]. cbn [List.length]. now rewrite IH.
  - apply String.eqb_neq in E.
    destruct (string_dec l nl); [congruence|]. apply IH.
Qed.

(** X3.  [remove_empty_lines] returns as many blocks as the input has blank
    lines. *)
Theorem X3_one_block_for_each_blank_line (lines : list string) :
  List.length (remove_empty_lines lines) = count_occ string_dec lines nl.
Proof.
  unfold remove_empty_lines. rewrite length_map, length_seq, separators_scan.
  apply separators_count.
Qed.

(** ** [parse_keywords]: the numeric shapes *)

Lemma rstrip_no_space (p : ascii -> bool) (s : string) :
  (forall c, p c = true -> is_space c = true) ->
  no_space s = true -> rstrip_by p s = s.
Proof.
  intros p_space. induction s as [|c s IH]; [reflexivity|].
  cbn [no_space rstrip_by]. intros H. apply andb_true_iff in H as [Hc Hs].
  apply negb_true_iff in Hc. rewrite (IH Hs).
  destruct (p c) eqn:Hp; [rewrite (p_space c Hp) in Hc; discriminate|].
  now destruct s.
Qed.

Lemma lstrip_no_space (p : ascii -> bool) (s : string) :
  (forall c, p c = true -> is_space c = true) ->
  no_space s = true -> lstrip_by p s = s.
Proof.
  intros p_space H. destruct s as [|c s]; [reflexivity|].
  cbn [no_space] in H. apply andb_true_iff in H as [Hc _].
  apply negb_true_iff in Hc. cbn [lstrip_by].
  destruct (p c) eqn:Hp; [rewrite (p_space c Hp) in Hc; discriminate|reflexivity].
Qed.

Lemma strip_no_space (s : string) : no_space s = true -> strip s = s.
Proof.
  intros H. unfold strip. rewrite lstrip_no_space by auto. now apply rstrip_no_space.
Qed.

Lemma float_strip_no_space (s : string) : no_space s = true -> float_strip s = s.
Proof.
  intros H. unfold float_strip.
  rewrite lstrip_no_space by (auto using float_space_is_space).
  apply rstrip_no_space; auto using float_space_is_space.
Qed.

Lemma float_token (s : string) (f : pyfloat) :
  float s = Some f -> floats (split s) = Some [f].
Proof.
  intros Hf. rewrite (float_single_token s Hf). cbn [floats].
  destruct (float_literal s Hf) as [Hn _].
  unfold float in *. rewrite (float_strip_no_space _ Hn). now rewrite Hf.
Qed.

Lemma floats_in_none (l : string) (xs : list string) :
  In l xs -> float l = None -> floats xs = None.
Proof.
  induction xs as [|x xs IH]; [intros []|].
  intros [<-|Hin] Hl; cbn [floats]; [now rewrite Hl|].
  destruct (float x); [|reflexivity]. now rewrite IH.
Qed.

Lemma float_token_count (s : string) :
  List.length (split s) <> 1 -> float s = None.
Proof.
  intros H. destruct (float s) as [f|] eqn:Hf; [|reflexivity].
  rewrite (float_single_token s Hf) in H. now elim H.
Qed.

(** X4.  A block with one payload line that [float] converts is parsed to
    that number, a scalar and not a list. *)
Theorem X4_single_number_is_scalar (kw line : string) (f : pyfloat) :
  float line = Some f ->
  parse_keywords [[kw; line]] = Ok [(lower (strip kw), VFloat f)].
Proof.
  intros Hf. unfold parse_keywords, classify_blocks. cbn [fold_left store_block].
  unfold classify, try_float_1d. cbn [List.length nth Nat.eqb andb].
  rewrite (float_single_token line Hf). cbn [List.length Nat.eqb].
  rewrite Hf. reflexivity.
Qed.

Lemma X4_witness :
  parse_keywords [[ln " Ne "; ln "1e2"]] = Ok [("ne", VFloat (fl 100))].
Proof.
  apply (@X4_single_number_is_scalar (ln " Ne ") (ln "1e2") (fl 100)).
  vm_compute. reflexivity.
Defined.

(** X5.  A block with two or more payload lines, each of which [float]
    converts as a whole, is parsed to the flat list of those numbers: a
    column of numbers is a vector, not a matrix of one-entry rows. *)
Theorem X5_numeric_column_is_vector
        (kw : string) (payload : list string) (fs : list pyfloat) :
  2 <= List.length payload ->
  Forall2 (fun line f => float line = Some f) payload fs ->
  parse_keywords [kw :: payload] = Ok [(lower (strip kw), VList (map VFloat fs))].
Proof.
  intros Hlen Hfs. apply floats_pointwise in Hfs.
  unfold parse_keywords, classify_blocks. cbn [fold_left store_block].
  unfold classify, try_float_1d.
  destruct (List.length payload =? 1) eqn:E; [apply Nat.eqb_eq in E; lia|].
  cbn [andb]. rewrite Hfs. cbn [option_map dict_set repair_pass].
  rewrite repair_float_vector; [reflexivity|].
  intros ->. apply floats_length in Hfs. simpl in Hfs. lia.
Qed.

Lemma X5_witness :
  parse_keywords [[ln "ASSIMINDEX"; ln "0"; ln "1"; ln " 2.5"]]
  = Ok [("assimindex", VList [VFloat (fl 0); VFloat (fl 1); VFloat (Finite (5 # 2))])].
Proof.
  apply (@X5_numeric_column_is_vector (ln "ASSIMINDEX") [ln "0"; ln "1"; ln " 2.5"]
           [fl 0; fl 1; Finite (5 # 2)]).
  - simpl. lia.
  - repeat constructor; vm_compute; reflexivity.
Defined.

Lemma float_rows_pointwise (payload : list string) (rows : list (list pyfloat)) :
  Forall2 (fun line row => floats (split line) = Some row) payload rows ->
  float_rows payload = Some (map float_vector rows).
Proof.
  induction 1 as [|line row payload rows Hrow _ IH]; [reflexivity|].
  cbn [float_rows map]. now rewrite Hrow, IH.
Qed.

Lemma repair_float_rows (rows : list (list pyfloat)) :
  map_result repair_row (map float_vector rows) = Ok (map float_vector rows).
Proof.
  induction rows as [|row rows IH]; [reflexivity|].
  cbn [map map_result]. rewrite repair_row_float_vector, IH. reflexivity.
Qed.

Lemma repair_float_matrix (rows : list (list pyfloat)) :
  rows <> [] ->
  repair_value (VList (map float_vector rows)) = Ok (VList (map float_vector rows)).
Proof.
  intros Hne. destruct rows as [|row rows]; [congruence|].
  unfold repair_value. cbn [map nth_error float_vector]. fold (float_vector row).
  rewrite repair_rows_map.
  change (float_vector row :: map float_vector rows) with (map float_vector (row :: rows)).
  now rewrite repair_float_rows.
Qed.

(** X6.  A block with two or more payload lines whose tokens all convert,
    one line at least not being a single token, is parsed to a matrix: one
    row for each payload line, holding the numbers of that line in order.
    The rows need not have the same length. *)
Theorem X6_numeric_rows_are_matrix
        (kw : string) (payload : list string) (rows : list (list pyfloat)) :
  2 <= List.length payload ->
  (exists line, In line payload /\ List.length (split line) <> 1) ->
  Forall2 (fun line row => floats (split line) = Some row) payload rows ->
  parse_keywords [kw :: payload]
  = Ok [(lower (strip kw), VList (map (fun row => VList (map VFloat row)) rows))] /\
  map (@List.length pyfloat) rows = map (fun line => List.length (split line)) payload.
Proof.
  intros Hlen [line [Hin Htok]] Hrows. split.
  - unfold parse_keywords, classify_blocks. cbn [fold_left store_block].
    unfold classify, try_float_1d, try_float_2d.
    destruct (List.length payload =? 1) eqn:E; [apply Nat.eqb_eq in E; lia|].
    cbn [andb]. rewrite (floats_in_none line payload Hin (float_token_count line Htok)).
    cbn [option_map]. rewrite (float_rows_pointwise Hrows).
    cbn [option_map dict_set repair_pass].
    change (fun row => VList (map VFloat row)) with float_vector.
    rewrite repair_float_matrix; [reflexivity|].
    intros ->. inversion Hrows; subst. simpl in Hlen. lia.
  - clear Hlen line Hin Htok.
    induction Hrows as [|line row payload rows Hrow _ IH]; [reflexivity|].
    cbn [map]. f_equal; [now apply floats_length|exact IH].
Qed.

Lemma X6_witness :
  parse_keywords [[ln "TRUEDATAINDEX"; ln "1 2 3"; ln "4"; ln "5 6"]]
  = Ok [("truedataindex",
         VList [VList [VFloat (fl 1); VFloat (fl 2); VFloat (fl 3)];
                VList [VFloat (fl 4)];
                VList [VFloat (fl 5); VFloat (fl 6)]])] /\
  map (@List.length pyfloat) [[fl 1; fl 2; fl 3]; [fl 4]; [fl 5; fl 6]]
  = map (fun line => List.length (split line)) [ln "1 2 3"; ln "4"; ln "5 6"].
Proof.
  apply (@X6_numeric_rows_are_matrix (ln "TRUEDATAINDEX") [ln "1 2 3"; ln "4"; ln "5 6"]
           [[fl 1; fl 2; fl 3]; [fl 4]; [fl 5; fl 6]]).
  - simpl. lia.
  - exists (ln "1 2 3"). split; [now left|]. vm_compute. discriminate.
  - repeat constructor; vm_compute; reflexivity.
Defined.

(** ** [parse_keywords]: the string shapes *)

Lemma float_rows_in_none (line : string) (payload : list string) :
  In line payload -> floats (split line) = None -> float_rows payload = None.
Proof.
  induction payload as [|x payload IH]; [intros []|].
  intros [<-|Hin] Hl; cbn [float_rows]; [now rewrite Hl|].
  destruct (floats (split x)); [|reflexivity]. now rewrite IH.
Qed.

Lemma floats_in_not_none (line : string) (payload : list string) (fs : list pyfloat) :
  floats payload = Some fs -> In line payload -> float line <> None.
Proof.
  intros Hfs Hin Hl. now rewrite (floats_in_none line payload Hin Hl) in Hfs.
Qed.

(** A line with a token that is no number is no number itself. *)
Lemma float_none_of_tokens (line : string) :
  floats (split line) = None -> float line = None.
Proof.
  intros H. destruct (float line) as [f|] eqn:Hf; [|reflexivity].
  rewrite (float_token line Hf) in H. discriminate.
Qed.

Lemma try_float_none (payload : list string) (line : string) :
  In line payload -> floats (split line) = None ->
  try_float_1d payload = None /\ try_float_2d payload = None.
Proof.
  intros Hin Hl. pose proof (float_none_of_tokens line Hl) as Hf.
  unfold try_float_1d, try_float_2d.
  destruct payload as [|x [|y payload]].
  - destruct Hin.
  - destruct Hin as [<-|[]]. cbn [List.length Nat.eqb nth andb].
    rewrite Hl. cbn [floats]. rewrite Hf.
    destruct (List.length (split x) =? 1); auto.
  - cbn [List.length Nat.eqb andb].
    now rewrite (floats_in_none line _ Hin Hf), (float_rows_in_none line _ Hin Hl).
Qed.

(** The first loop of [repair_value] on a list of strings. *)
Lemma repair_str_list (ss : list string) :
  ss <> [] ->
  repair_value (VList (map VStr ss)) = Ok (VList (map repair_entry (map VStr ss))).
Proof.
  intros Hne. destruct ss as [|s ss]; [congruence|].
  unfold repair_value. cbn [map nth_error].
  change (VStr s :: map VStr ss) with (map VStr (s :: ss)).
  now rewrite forallb_is_str_map, repair_entries_map.
Qed.

(** X7.  A block with one payload line that holds no tab and a token that
    is no number is parsed to one string: the line, stripped and lowercased,
    inner white space kept. *)
Theorem X7_single_text_line_is_string (kw line : string) :
  List.length (split_on tab line) = 1 ->
  floats (split line) = None ->
  parse_keywords [[kw; line]] = Ok [(lower (strip kw), VStr (lower (strip line)))].
Proof.
  intros Htab Htok. unfold parse_keywords, classify_blocks. cbn [fold_left store_block].
  unfold classify.
  destruct (try_float_none [line] line (or_introl eq_refl) Htok) as [-> ->].
  unfold as_strings. cbn [List.length Nat.eqb nth]. rewrite Htab. reflexivity.
Qed.

Lemma X7_witness :
  parse_keywords [[ln "SIMULATOR"; ln "  Eclipse 100 "]]
  = Ok [("simulator", VStr "eclipse 100")].
Proof.
  apply (@X7_single_text_line_is_string (ln "SIMULATOR") (ln "  Eclipse 100 "));
    vm_compute; reflexivity.
Defined.

Lemma fields_empty_no_token (s : string) :
  filter nonempty (split_on tab s) = [] -> split s = [].
Proof.
  induction s as [|c s IH]; [reflexivity|].
  cbn [split_on]. destruct (Ascii.eqb c tab) eqn:Ec.
  - apply Ascii.eqb_eq in Ec. subst c. cbn [filter nonempty String.eqb negb].
    intros H. rewrite split_cons. change (is_space tab) with true. cbv iota. auto.
  - destruct (split_on tab s); cbn [filter nonempty String.eqb negb]; discriminate.
Qed.

Lemma str_fields_strings (col : string) :
  str_fields col
  = map VStr (map (fun x => lower (rstrip_nl x)) (filter nonempty (split_on tab col))).
Proof. unfold str_fields. now rewrite map_map. Qed.

(** X8.  A block with one payload line that holds a tab and a token that
    is no number is parsed to a list with one entry for each non-empty
    tab-separated field, in order.  With the field taken without its
    trailing newlines and lowercased, the entry is the number [float] reads
    in it, or else the list of the numbers its whitespace-separated tokens
    read as, or else, when a token is no number, the field as a string. *)
Theorem X8_tabbed_text_line_is_vector (kw line : string) :
  List.length (split_on tab line) <> 1 ->
  floats (split line) = None ->
  exists entries : list value,
    parse_keywords [[kw; line]] = Ok [(lower (strip kw), VList entries)] /\
    Forall2 (fun x e =>
               match float (lower (rstrip_nl x)) with
               | Some f => e = VFloat f
               | None =>
                   match floats (split (lower (rstrip_nl x))) with
                   | Some fs => e = VList (map VFloat fs)
                   | None => e = VStr (lower (rstrip_nl x))
                   end
               end)
            (filter nonempty (split_on tab line)) entries.
Proof.
  intros Htab Htok.
  exists (map (fun x => repair_entry (VStr (lower (rstrip_nl x))))
              (filter nonempty (split_on tab line))).
  split.
  - unfold parse_keywords, classify_blocks. cbn [fold_left store_block].
    unfold classify.
    destruct (try_float_none [line] line (or_introl eq_refl) Htok) as [-> ->].
    unfold as_strings. cbn [List.length Nat.eqb nth].
    apply Nat.eqb_neq in Htab. rewrite Htab.
    cbn [dict_set repair_pass]. rewrite str_fields_strings, repair_str_list.
    + cbn [bind]. now rewrite !map_map.
    + intros E. apply map_eq_nil in E. apply fields_empty_no_token in E.
      rewrite E in Htok. discriminate.
  - induction (filter nonempty (split_on tab line)) as [|x xs IH];
      cbn [map]; constructor; [|exact IH].
    exact (repair_entry_of_string (lower (rstrip_nl x))).
Qed.

Lemma X8_witness :
  exists entries : list value,
    parse_keywords [[ln "DATATYPE"; ln ("WOPR" ++ tb ++ tb ++ "Rate 1" ++ tb ++ "7")%string]]
    = Ok [("datatype", VList entries)] /\
    Forall2 (fun x e =>
               match float (lower (rstrip_nl x)) with
               | Some f => e = VFloat f
               | None =>
                   match floats (split (lower (rstrip_nl x))) with
                   | Some fs => e = VList (map VFloat fs)
                   | None => e = VStr (lower (rstrip_nl x))
                   end
               end)
            ["WOPR"; "Rate 1"; ln "7"] entries.
Proof.
  apply (@X8_tabbed_text_line_is_vector (ln "DATATYPE")
           (ln ("WOPR" ++ tb ++ tb ++ "Rate 1" ++ tb ++ "7")%string)).
  - vm_compute. discriminate.
  - vm_compute. reflexivity.
Defined.

(** X9.  A block with two or more payload lines, none of which holds a tab
    and one of which has a token that is no number, is parsed to a list with
    one entry for each line, in order.  With the line taken without its
    trailing newlines and lowercased, the entry is the number [float] reads
    in it, or else the list of the numbers its whitespace-separated tokens
    read as, or else, when a token is no number, the line as a string.  A
    column of text with numbers in it comes out mixed. *)
Theorem X9_text_column_is_vector (kw : string) (payload : list string) :
  2 <= List.length payload ->
  one_column payload = true ->
  (exists line, In line payload /\ floats (split line) = None) ->
  exists entries : list value,
    parse_keywords [kw :: payload] = Ok [(lower (strip kw), VList entries)] /\
    Forall2 (fun x e =>
               match float (lower (rstrip_nl x)) with
               | Some f => e = VFloat f
               | None =>
                   match floats (split (lower (rstrip_nl x))) with
                   | Some fs => e = VList (map VFloat fs)
                   | None => e = VStr (lower (rstrip_nl x))
                   end
               end)
            payload entries.
Proof.
  intros Hlen Hcol [line [Hin Htok]].
  exists (map (fun x => repair_entry (VStr (lower (rstrip_nl x)))) payload).
  split.
  - unfold parse_keywords, classify_blocks. cbn [fold_left store_block].
    unfold classify. destruct (try_float_none payload line Hin Htok) as [-> ->].
    unfold as_strings.
    destruct (List.length payload =? 1) eqn:E; [apply Nat.eqb_eq in E; lia|].
    rewrite Hcol. cbn [dict_set repair_pass].
    rewrite <- (map_map (fun x => lower (rstrip_nl x)) VStr), repair_str_list.
    + cbn [bind]. now rewrite !map_map.
    + intros E'. apply map_eq_nil in E'. subst payload. simpl in Hlen. lia.
  - clear. induction payload as [|x xs IH]; cbn [map]; constructor; [|exact IH].
    exact (repair_entry_of_string (lower (rstrip_nl x))).
Qed.

Lemma X9_witness :
  exists entries : list value,
    parse_keywords [[ln "OBSNAME"; ln "Days"; ln "30"; ln "1 2"]]
    = Ok [("obsname", VList entries)] /\
    Forall2 (fun x e =>
               match float (lower (rstrip_nl x)) with
               | Some f => e = VFloat f
               | None =>
                   match floats (split (lower (rstrip_nl x))) with
                   | Some fs => e = VList (map VFloat fs)
                   | None => e = VStr (lower (rstrip_nl x))
                   end
               end)
            [ln "Days"; ln "30"; ln "1 2"] entries.
Proof.
  apply (@X9_text_column_is_vector (ln "OBSNAME") [ln "Days"; ln "30"; ln "1 2"]).
  - simpl. lia.
  - vm_compute. reflexivity.
  - exists (ln "Days"). split; [now left|]. vm_compute. reflexivity.
Defined.

(** ** [parse_keywords]: blocks, keys and exceptions *)

Lemma store_blocks_skip_empty (blocks : list (list string)) (d : dict) :
  fold_left store_block (filter nonempty_block blocks) d = fold_left store_block blocks d.
Proof.
  revert d. induction blocks as [|b blocks IH]; intros d; [reflexivity|].
  destruct b as [|kw payload]; cbn [filter nonempty_block fold_left]; apply IH.
Qed.

(** X10.  Empty blocks count for nothing: [parse_keywords] gives the same
    outcome with them and without them. *)
Theorem X10_empty_blocks_ignored (blocks : list (list string)) :
  parse_keywords (filter nonempty_block blocks) = parse_keywords blocks.
Proof.
  unfold parse_keywords, classify_blocks. now rewrite store_blocks_skip_empty.
Qed.

Lemma dict_set_in_keys (k k' : string) (v : value) (d : dict) :
  In k (dict_keys (dict_set k' v d)) <-> k = k' \/ In k (dict_keys d).
Proof.
  rewrite dict_set_keys.
  destruct (in_dec string_dec k' (dict_keys d)) as [i|n].
  - split; [auto|]. intros [->|H]; auto.
  - rewrite in_app_iff. cbn [In]. split.
    + intros [H|[<-|[]]]; auto.
    + intros [->|H]; auto.
Qed.

Lemma store_blocks_keys (blocks : list (list string)) (d : dict) (k : string) :
  In k (dict_keys (fold_left store_block blocks d)) <->
  In k (dict_keys d) \/ exists b, In b blocks /\ b <> [] /\ keyword_of b = k.
Proof.
  revert d. induction blocks as [|b blocks IH]; intros d.
  - cbn [fold_left]. split; [auto|]. intros [H|[b [[] _]]]. exact H.
  - cbn [fold_left]. rewrite IH. destruct b as [|kw payload]; cbn [store_block].
    + split.
      * intros [H|[b [Hb H]]]; [auto|]. right. exists b. split; [now right|exact H].
      * intros [H|[b [[<-|Hb] [Hne H]]]]; [auto|congruence|]. right. eauto.
    + rewrite dict_set_in_keys. split.
      * intros [[->|H]|[b [Hb H]]]; [|auto|].
        -- right. exists (kw :: payload). split; [now left|]. split; [discriminate|reflexivity].
        -- right. exists b. split; [now right|exact H].
      * intros [H|[b [[<-|Hb] [Hne H]]]]; [auto| |].
        -- left. left. now symmetry.
        -- right. eauto.
Qed.

(** X11.  When [parse_keywords] returns a mapping, its keys are the first
    lines of the non-empty blocks, stripped and lowercased, and each of
    them once. *)
Theorem X11_keys_are_block_keywords (blocks : list (list string)) (keys : dict) :
  parse_keywords blocks = Ok keys ->
  NoDup (dict_keys keys) /\
  forall k, In k (dict_keys keys) <->
            exists b, In b blocks /\ b <> [] /\ keyword_of b = k.
Proof.
  intros H. unfold parse_keywords, classify_blocks in H.
  rewrite (repair_pass_keys _ H). split.
  - apply store_blocks_nodup. constructor.
  - intros k. rewrite store_blocks_keys. cbn [dict_keys map In]. tauto.
Qed.

Lemma X11_witness :
  NoDup (dict_keys [("ne", VFloat (fl 7)); ("obsname", VStr "days")]) /\
  forall k, In k (dict_keys [("ne", VFloat (fl 7)); ("obsname", VStr "days")]) <->
            exists b, In b [[ln "NE"; ln "100"]; []; [ln "ObsName"; ln "Days"]; [ln " ne "; ln "7"]]
                      /\ b <> [] /\ keyword_of b = k.
Proof.
  apply (@X11_keys_are_block_keywords
           [[ln "NE"; ln "100"]; []; [ln "ObsName"; ln "Days"]; [ln " ne "; ln "7"]]).
  vm_compute. reflexivity.
Defined.

Lemma float_rows_lists (payload : list string) (rows : list value) :
  float_rows payload = Some rows -> forallb is_list rows = true.
Proof.
  revert rows. induction payload as [|col payload IH]; intros rows; cbn [float_rows].
  - now intros [= <-].
  - destruct (floats (split col)); [|discriminate].
    destruct (float_rows payload) as [rows'|]; [|discriminate].
    intros [= <-]. cbn [forallb float_vector is_list andb]. now apply IH.
Qed.

Lemma uniform_rows_lists (l : list value) :
  forallb is_list l = true -> uniform_rows (VList l) = true.
Proof.
  destruct l as [|[f|s|x] l]; cbn [uniform_rows forallb is_list andb]; auto.
Qed.

Lemma uniform_rows_strings (ss : list string) : uniform_rows (VList (map VStr ss)) = true.
Proof. now destruct ss. Qed.

Lemma uniform_rows_floats (fs : list pyfloat) : uniform_rows (float_vector fs) = true.
Proof. now destruct fs. Qed.

(** What the first loop stores is a scalar, a list without lists, or a list
    of lists. *)
Lemma classify_uniform (payload : list string) : uniform_rows (classify payload) = true.
Proof.
  unfold classify.
  destruct (try_float_1d payload) as [v|] eqn:H1.
  - unfold try_float_1d in H1.
    destruct (_ && _); [destruct (float _); [|discriminate] | destruct (floats _); [|discriminate]];
      injection H1 as <-; [reflexivity | apply uniform_rows_floats].
  - destruct (try_float_2d payload) as [v|] eqn:H2.
    + unfold try_float_2d in H2. destruct (List.length payload =? 1).
      * destruct (floats _); [|discriminate]. injection H2 as <-. apply uniform_rows_floats.
      * destruct (float_rows payload) as [rows|] eqn:Hr; [|discriminate].
        injection H2 as <-. apply uniform_rows_lists. eapply float_rows_lists; eauto.
    + unfold as_strings.
      destruct (List.length payload =? 1).
      * destruct (_ =? 1); [reflexivity|]. rewrite str_fields_strings. apply uniform_rows_strings.
      * destruct (one_column payload).
        -- rewrite <- (map_map (fun x => lower (rstrip_nl x)) VStr). apply uniform_rows_strings.
        -- apply uniform_rows_lists. clear. induction payload; cbn [map forallb is_list andb]; auto.
Qed.

Lemma repair_rows_lists (l : list value) :
  forallb is_list l = true -> exists l', map_result repair_row l = Ok l'.
Proof.
  induction l as [|[f|s|x] l IH]; cbn [forallb is_list andb]; try discriminate.
  - intros _. cbn [map_result]. eauto.
  - intros H. destruct (IH H) as [l' Hl']. cbn [map_result repair_row bind].
    rewrite Hl'. cbn [bind]. eauto.
Qed.

(** On such a value the second loop fails on the empty list only. *)
Lemma repair_value_uniform (v : value) :
  uniform_rows v = true ->
  (v = VList [] /\ repair_value v = Err IndexError) \/ exists v', repair_value v = Ok v'.
Proof.
  destruct v as [f|s|l]; [right; cbn; eauto ..|].
  destruct l as [|[f|s|x] l]; [left; auto | right; cbn; eauto ..|].
  cbn [uniform_rows]. intros H. right.
  destruct (repair_rows_lists (VList x :: l) H) as [l' Hl'].
  unfold repair_value. cbn [nth_error]. rewrite repair_rows_map, Hl'. cbn [bind]. eauto.
Qed.

Lemma dict_set_uniform (k : string) (v : value) (d : dict) :
  uniform_rows v = true -> uniform_dict d -> uniform_dict (dict_set k v d).
Proof.
  intros Hv Hd. induction Hd as [|[k' v'] d Hkv Hd IH]; cbn [dict_set].
  - repeat constructor. exact Hv.
  - destruct (String.eqb k' k); constructor; auto.
Qed.

Lemma classify_blocks_uniform (blocks : list (list string)) (d : dict) :
  uniform_dict d -> uniform_dict (fold_left store_block blocks d).
Proof.
  revert d. induction blocks as [|b blocks IH]; intros d Hd; [exact Hd|].
  cbn [fold_left]. apply IH. destruct b as [|kw payload]; [exact Hd|].
  apply dict_set_uniform; [apply classify_uniform | exact Hd].
Qed.

Lemma repair_pass_uniform (d : dict) :
  uniform_dict d ->
  (forall e, repair_pass d = Err e -> e = IndexError) /\
  (repair_pass d = Err IndexError <-> exists k, In (k, VList []) d).
Proof.
  induction 1 as [|[k v] d Hv _ [IH1 IH2]].
  - split; [discriminate|]. split; [discriminate|]. intros [k []].
  - cbn [snd] in Hv. cbn [repair_pass].
    destruct (repair_value_uniform v Hv) as [[-> ->]|[v' Hr]]; [|rewrite Hr]; cbn [bind].
    + split; [now intros e [= <-]|]. split; [|reflexivity].
      intros _. exists k. now left.
    + assert (Hv' : v <> VList []).
      { intros ->. discriminate. }
      destruct (repair_pass d) as [rest|e] eqn:Hd; cbn [bind].
      * split; [discriminate|]. split; [discriminate|].
        intros [k0 [Heq|Hin]]; [injection Heq as _ Hv0; congruence|].
        assert (Hbad : Ok rest = @Err dict IndexError) by (apply IH2; eauto).
        discriminate Hbad.
      * assert (He : e = IndexError) by (now apply IH1). subst e.
        split; [now intros e0 [= <-]|].
        split; [|reflexivity].
        intros _. destruct (proj1 IH2 eq_refl) as [k0 Hk0]. exists k0. now right.
Qed.

(** X12.  The only exception [parse_keywords] raises is [IndexError], and
    it raises it exactly when its first loop has stored the empty list for
    some keyword. *)
Theorem X12_only_index_error (blocks : list (list string)) :
  (forall e, parse_keywords blocks = Err e -> e = IndexError) /\
  (parse_keywords blocks = Err IndexError <->
   exists k, In (k, VList []) (classify_blocks blocks)).
Proof.
  apply repair_pass_uniform. apply classify_blocks_uniform. constructor.
Qed.

Lemma float_rows_nil (payload : list string) :
  float_rows payload = Some [] -> payload = [].
Proof.
  destruct payload as [|col payload]; [reflexivity|]. cbn [float_rows].
  destruct (floats (split col)); [|discriminate].
  destruct (float_rows payload); discriminate.
Qed.

Lemma floats_nil (xs : list string) : floats xs = Some [] -> xs = [].
Proof.
  intros H. apply floats_length in H. now destruct xs.
Qed.

Lemma classify_nil (payload : list string) :
  classify payload = VList [] <->
  payload = [] \/ exists line, payload = [line] /\ split line = [].
Proof.
  split.
  - unfold classify. destruct (try_float_1d payload) as [v|] eqn:H1.
    + intros ->. unfold try_float_1d in H1. destruct (_ && _).
      * destruct (float _); discriminate.
      * destruct (floats payload) as [fs|] eqn:Hfs; [|discriminate].
        injection H1 as H1. apply map_eq_nil in H1. subst fs.
        left. now apply floats_nil.
    + destruct (try_float_2d payload) as [v|] eqn:H2.
      * intros ->. unfold try_float_2d in H2.
        destruct payload as [|x [|y payload]]; [now left| |].
        -- cbn [List.length Nat.eqb nth] in H2.
           destruct (floats (split x)) as [fs|] eqn:Hfs; [|discriminate].
           injection H2 as H2. apply map_eq_nil in H2. subst fs.
           right. exists x. split; [reflexivity|now apply floats_nil].
        -- cbn [List.length Nat.eqb] in H2.
           destruct (float_rows (x :: y :: payload)) as [rows|] eqn:Hr; [|discriminate].
           injection H2 as ->. now apply float_rows_nil in Hr.
      * unfold as_strings. destruct payload as [|x [|y payload]]; [now left| |].
        -- cbn [List.length Nat.eqb nth].
           destruct (_ =? 1); [discriminate|].
           intros [= H]. right. exists x. split; [reflexivity|].
           apply fields_empty_no_token. unfold str_fields in H. now apply map_eq_nil in H.
        -- cbn [List.length Nat.eqb]. destruct (one_column _); discriminate.
  - intros [->|[line [-> Hs]]]; [reflexivity|].
    unfold classify, try_float_1d, try_float_2d.
    cbn [List.length Nat.eqb nth andb floats]. rewrite Hs.
    cbn [List.length Nat.eqb andb floats].
    rewrite float_token_count by (rewrite Hs; discriminate). reflexivity.
Qed.

(** X13.  The first loop of [parse_keywords] stores the empty list for a
    payload exactly when the block has no payload line, or has one payload
    line made of white space only. *)
Theorem X13_empty_list_stored (payload : list string) :
  classify payload = VList [] <->
  payload = [] \/ exists line, payload = [line] /\ split line = [].
Proof. exact (classify_nil payload). Qed.

Lemma dict_set_in (k k0 : string) (v v0 : value) (d : dict) :
  In (k0, v0) (dict_set k v d) -> v0 = v \/ In (k0, v0) d.
Proof.
  induction d as [|[k' v'] d IH]; cbn [dict_set].
  - intros [[= _ <-]|[]]. now left.
  - destruct (String.eqb k' k).
    + intros [[= _ <-]|H]; [now left|right; now right].
    + intros [H|H]; [right; now left|].
      destruct (IH H) as [->|H']; [now left|right; now right].
Qed.

Lemma store_blocks_values (blocks : list (list string)) (d : dict) (k : string) (v : value) :
  In (k, v) (fold_left store_block blocks d) ->
  In (k, v) d \/ exists kw payload, In (kw :: payload) blocks /\ v = classify payload.
Proof.
  revert d. induction blocks as [|b blocks IH]; intros d; [now left|].
  cbn [fold_left]. intros H. destruct (IH _ H) as [Hd|[kw [payload [Hin Hv]]]].
  - destruct b as [|kw payload]; [now left|]. cbn [store_block] in Hd.
    destruct (@dict_set_in _ _ _ _ _ Hd) as [->|Hd']; [|now left].
    right. exists kw, payload. split; [now left|reflexivity].
  - right. exists kw, payload. split; [now right|exact Hv].
Qed.

(** X14.  [parse_keywords] returns a mapping whenever every non-empty
    block has a payload line and no block has a single payload line of
    white space only. *)
Theorem X14_returns_on_filled_blocks (blocks : list (list string)) :
  (forall kw payload, In (kw :: payload) blocks ->
     payload <> [] /\ forall line, payload = [line] -> split line <> []) ->
  exists keys, parse_keywords blocks = Ok keys.
Proof.
  intros Hfilled. destruct (parse_keywords blocks) as [keys|e] eqn:Hp; [eauto|].
  exfalso. unfold parse_keywords in Hp.
  assert (Hu : uniform_dict (classify_blocks blocks))
    by (apply classify_blocks_uniform; constructor).
  destruct (repair_pass_uniform Hu) as [H1 H2].
  rewrite (H1 e Hp) in Hp. destruct (proj1 H2 Hp) as [k Hk].
  destruct (store_blocks_values blocks [] k (VList []) Hk) as [[]|[kw [payload [Hin Hv]]]].
  symmetry in Hv. apply classify_nil in Hv.
  destruct (Hfilled kw payload Hin) as [Hne Hline].
  destruct Hv as [->|[line [-> Hs]]]; [congruence|].
  exact (Hline line eq_refl Hs).
Qed.

Lemma X14_witness :
  exists keys,
    parse_keywords [[ln "NE"; ln "100"]; []; [ln "OBSNAME"; ln "Days"; ln "30"]] = Ok keys.
Proof.
  apply (@X14_returns_on_filled_blocks
           [[ln "NE"; ln "100"]; []; [ln "OBSNAME"; ln "Days"; ln "30"]]).
  intros kw payload [[= <- <-]|[[=]|[[= <- <-]|[]]]]; split;
    try discriminate; intros line [= <-]; vm_compute; discriminate.
Defined.

(** ** [check_mand_keywords_da_fwdsim] *)

(** The function is its membership assertions and nothing more: the
    assertion of line 218 never fails. *)
Lemma check_mand_as_table (keys_da keys_fwd : dict) :
  check_mand_keywords_da_fwdsim keys_da keys_fwd
  = run_asserts (lookups da_mandatory keys_da ++ lookups fwd_mandatory keys_fwd).
Proof.
  unfold check_mand_keywords_da_fwdsim, lookups, da_mandatory, fwd_mandatory.
  cbn [map app fst snd run_asserts].
  rewrite prior_check_vacuous.
  destruct (dict_mem "importstaticvar" keys_da); cbn [negb assert bind];
    repeat (match goal with
            | |- context [assert (dict_mem ?k ?d) _] => destruct (dict_mem k d)
            end; cbn [assert bind]; try reflexivity).
Qed.

Lemma run_asserts_ok (checks : list (bool * string)) :
  run_asserts checks = Ok tt <-> forall c, In c checks -> fst c = true.
Proof.
  induction checks as [|[c msg] checks IH]; cbn [run_asserts].
  - split; [intros _ c []|reflexivity].
  - destruct c; cbn [assert bind].
    + rewrite IH. split; [intros H c [<-|Hc]; auto | intros H c Hc; apply H; now right].
    + split; [discriminate|]. intros H. specialize (H (false, msg) (or_introl eq_refl)).
      discriminate H.
Qed.

Lemma run_asserts_first (pre post : list (bool * string)) (msg : string) :
  (forall c, In c pre -> fst c = true) ->
  run_asserts (pre ++ (false, msg) :: post) = Err (AssertionError msg).
Proof.
  induction pre as [|[c m] pre IH]; intros H; [reflexivity|].
  cbn [app run_asserts]. rewrite (H (c, m) (or_introl eq_refl) : c = true).
  cbn [assert bind]. apply IH. intros c' Hc'. apply H. now right.
Qed.

Lemma lookups_true (table : list (string * string)) (keys : dict) :
  (forall c, In c (lookups table keys) -> fst c = true) <->
  (forall k, In k (map fst table) -> dict_mem k keys = true).
Proof.
  unfold lookups. split.
  - intros H k Hk. apply in_map_iff in Hk as [[k' m] [<- Hin]].
    apply (H (dict_mem k' keys, m)). apply in_map_iff. exists (k', m). auto.
  - intros H c Hc. apply in_map_iff in Hc as [[k m] [<- Hin]]. cbn [fst].
    apply H. apply in_map_iff. exists (k, m). auto.
Qed.

(** X15.  The validation passes exactly when [keys_da] holds the eight
    keywords [ne], [truedataindex], [assimindex], [truedata], [staticvar],
    [datavar], [obsname], [energy] and [keys_fwd] holds [simulator],
    [parallel], [datatype].  Neither [importstaticvar] nor any [prior_]
    key, nor any value, has a part in it. *)
Theorem X15_validation_accepts (keys_da keys_fwd : dict) :
  check_mand_keywords_da_fwdsim keys_da keys_fwd = Ok tt <->
  (forall k, In k (map fst da_mandatory) -> dict_mem k keys_da = true) /\
  (forall k, In k (map fst fwd_mandatory) -> dict_mem k keys_fwd = true).
Proof.
  rewrite check_mand_as_table, run_asserts_ok, <- !lookups_true.
  split.
  - intros H. split; intros c Hc; apply H; apply in_or_app; auto.
  - intros [H1 H2] c Hc. apply in_app_or in Hc as [Hc|Hc]; auto.
Qed.

(** X16.  When a mandatory keyword is missing from [keys_da] and those
    checked before it are there, the validation fails with the
    [AssertionError] of that keyword, whatever [keys_fwd] holds. *)
Theorem X16_first_missing_da_keyword
        (keys_da keys_fwd : dict) (before after : list (string * string))
        (k msg : string) :
  da_mandatory = before ++ (k, msg) :: after ->
  (forall k', In k' (map fst before) -> dict_mem k' keys_da = true) ->
  dict_mem k keys_da = false ->
  check_mand_keywords_da_fwdsim keys_da keys_fwd = Err (AssertionError msg).
Proof.
  intros Htable Hbefore Hk. rewrite check_mand_as_table, Htable.
  unfold lookups. rewrite map_app. cbn [map fst snd]. rewrite Hk, <- app_assoc.
  cbn [app]. apply run_asserts_first.
  fold (lookups before keys_da). now apply lookups_true.
Qed.

Lemma X16_witness :
  check_mand_keywords_da_fwdsim
    [("ne", one); ("truedataindex", one); ("truedata", one); ("energy", one)] []
  = Err (AssertionError "ASSIMINDEX not in DATAASSIM!").
Proof.
  apply (@X16_first_missing_da_keyword _ _
           [("ne", "NE not in DATAASSIM!");
            ("truedataindex", "TRUEDATAINDEX not in DATAASSIM!")]
           [("truedata", "TRUEDATA not in DATAASSIM!");
            ("staticvar", "STATICVAR not in DATAASSIM!");
            ("datavar", "DATAVAR not in DATAASSIM!");
            ("obsname", "OBSNAME not in DATAASSIM!");
            ("energy", "ENERGY not in DATAASSIM!")]
           "assimindex").
  - reflexivity.
  - intros k' [<-|[<-|[]]]; reflexivity.
  - reflexivity.
Defined.

(** X17.  When [keys_da] holds its eight mandatory keywords, a mandatory
    keyword missing from [keys_fwd], those checked before it being there,
    makes the validation fail with the [AssertionError] of that keyword. *)
Theorem X17_first_missing_fwd_keyword
        (keys_da keys_fwd : dict) (before after : list (string * string))
        (k msg : string) :
  (forall k', In k' (map fst da_mandatory) -> dict_mem k' keys_da = true) ->
  fwd_mandatory = before ++ (k, msg) :: after ->
  (forall k', In k' (map fst before) -> dict_mem k' keys_fwd = true) ->
  dict_mem k keys_fwd = false ->
  check_mand_keywords_da_fwdsim keys_da keys_fwd = Err (AssertionError msg).
Proof.
  intros Hda Htable Hbefore Hk. rewrite check_mand_as_table, Htable.
  unfold lookups at 2. rewrite map_app. cbn [map fst snd]. rewrite Hk, app_assoc.
  apply run_asserts_first. intros c Hc. apply in_app_or in Hc as [Hc|Hc].
  - revert c Hc. now apply lookups_true.
  - revert c Hc. fold (lookups before keys_fwd). now apply lookups_true.
Qed.

Lemma X17_witness :
  check_mand_keywords_da_fwdsim da_without_prior [("simulator", VStr "eclipse")]
  = Err (AssertionError "PARALLEL not in FWDSIM!").
Proof.
  apply (@X17_first_missing_fwd_keyword da_without_prior _
           [("simulator", "SIMULATOR not in FWDSIM!")]
           [("datatype", "DATATYPE not in FWDSIM!")] "parallel").
  - intros k' H. cbn in H.
    repeat (destruct H as [<-|H]; [reflexivity|]). destruct H.
  - reflexivity.
  - intros k' [<-|[]]; reflexivity.
  - reflexivity.
Defined.

(** ** [read_txt] *)

Lemma existsb_false_forallb {A : Type} (p : A -> bool) (l : list A) :
  existsb p l = false -> forallb (fun x => negb (p x)) l = true.
Proof.
  induction l as [|x l IH]; [reflexivity|].
  cbn [existsb forallb]. intros H. apply orb_false_iff in H as [Hx Hl].
  now rewrite Hx, IH.
Qed.

(** X18.  Of several [dataassim] or [optim] lines the last one counts: it
    gives [ipind] and [ip_part]. *)
Theorem X18_last_ip_marker_counts (before after : list string) (m : string) :
  is_ip_marker m = true ->
  forallb (fun l => negb (is_ip_marker l)) after = true ->
  ipind (find_markers (before ++ m :: after)) = Some (List.length before) /\
  ip_part (find_markers (before ++ m :: after)) = Some (marker_text m).
Proof.
  intros Hm Hafter. rewrite find_markers_scan, scan_from_app. cbn [scan_from Nat.add].
  destruct (scan_from_no_ip after (S (List.length before))
              (scan m (List.length before) (scan_from 0 before (Markers None None None)))
              Hafter) as [-> ->].
  unfold scan. rewrite Hm. auto.
Qed.

Lemma X18_witness :
  ipind (find_markers [ln "DATAASSIM"; ln "-"; ln "FWDSIM"; ln " Optim "; ln "NE"])
  = Some 3 /\
  ip_part (find_markers [ln "DATAASSIM"; ln "-"; ln "FWDSIM"; ln " Optim "; ln "NE"])
  = Some "optim".
Proof.
  apply (@X18_last_ip_marker_counts [ln "DATAASSIM"; ln "-"; ln "FWDSIM"] [ln "NE"]
           (ln " Optim ")); vm_compute; reflexivity.
Defined.

(** X19.  Of several [fwdsim] lines the last one counts: it gives
    [fwdsimind]. *)
Theorem X19_last_fwd_marker_counts (before after : list string) (m : string) :
  is_fwd_marker m = true ->
  forallb (fun l => negb (is_fwd_marker l)) after = true ->
  fwdsimind (find_markers (before ++ m :: after)) = Some (List.length before).
Proof.
  intros Hm Hafter. rewrite find_markers_scan, scan_from_app. cbn [scan_from Nat.add].
  rewrite (scan_from_no_fwd after _ _ Hafter).
  unfold scan. now rewrite (fwd_marker_not_ip m Hm), Hm.
Qed.

Lemma X19_witness :
  fwdsimind (find_markers [ln "fwdsim"; ln "OPTIM"; ln "FwdSim"; nl; ln "NE"]) = Some 2.
Proof.
  apply (@X19_last_fwd_marker_counts [ln "fwdsim"; ln "OPTIM"] [nl; ln "NE"] (ln "FwdSim"));
    vm_compute; reflexivity.
Defined.

Lemma ipind_some_marker (lines : list string) (i : nat) :
  ipind (find_markers lines) = Some i -> existsb is_ip_marker lines = true.
Proof.
  intros H. destruct (existsb is_ip_marker lines) eqn:E; [reflexivity|].
  apply existsb_false_forallb in E. rewrite find_markers_scan in H.
  destruct (scan_from_no_ip lines 0 (Markers None None None) E) as [H' _].
  rewrite H' in H. discriminate.
Qed.

Lemma fwdsimind_some_marker (lines : list string) (i : nat) :
  fwdsimind (find_markers lines) = Some i -> existsb is_fwd_marker lines = true.
Proof.
  intros H. destruct (existsb is_fwd_marker lines) eqn:E; [reflexivity|].
  apply existsb_false_forallb in E. rewrite find_markers_scan in H.
  rewrite (scan_from_no_fwd lines 0 (Markers None None None) E) in H. discriminate.
Qed.

(** X20.  When [read_txt] returns, the file name ends in [.pipt], the file
    could be read, its lines that are no comments hold a [dataassim] or
    [optim] line and a [fwdsim] line, and the result is what
    [Organize_input] gave for two dictionaries that passed the validation:
    nothing is returned for a file that fails any of these. *)
Theorem X20_read_txt_returns_only_validated
        (fs : filesystem) (Organize_input : organizer) (init_file : string)
        (r : dict * dict) :
  read_txt fs Organize_input init_file = Ok r ->
  endswith ".pipt" init_file = true /\
  exists raw keys_da keys_fwd,
    fs init_file = Some raw /\
    existsb is_ip_marker (filter keep_line raw) = true /\
    existsb is_fwd_marker (filter keep_line raw) = true /\
    check_mand_keywords_da_fwdsim keys_da keys_fwd = Ok tt /\
    Organize_input keys_da keys_fwd = Ok r.
Proof.
  unfold read_txt, read_clean_file.
  destruct (endswith ".pipt" init_file); [|discriminate]. cbn [negb].
  destruct (fs init_file) as [raw|]; [|discriminate]. cbn [bind].
  unfold read_lines.
  destruct (ipind (find_markers (filter keep_line raw))) as [i|] eqn:Hi; [|discriminate].
  destruct (fwdsimind (find_markers (filter keep_line raw))) as [f|] eqn:Hf; [|discriminate].
  cbn [local bind].
  destruct (ip_part (find_markers (filter keep_line raw))) as [part|]; [|discriminate].
  cbn [local bind].
  destruct (String.eqb part "dataassim" || String.eqb part "optim").
  - destruct (parse_keywords _) as [keys_da|]; [|discriminate]. cbn [bind].
    destruct (parse_keywords _) as [keys_fwd|]; [|discriminate]. cbn [local bind].
    destruct (check_mand_keywords_da_fwdsim keys_da keys_fwd) as [[]|] eqn:Hc; [|discriminate].
    cbn [bind]. intros Hr. split; [reflexivity|].
    exists raw, keys_da, keys_fwd.
    repeat split; eauto using ipind_some_marker, fwdsimind_some_marker.
  - cbn [bind]. destruct (parse_keywords _); discriminate.
Qed.

Lemma X20_witness :
  endswith ".pipt" "da_first.pipt" = true /\
  exists raw keys_da keys_fwd,
    two_files "da_first.pipt" = Some raw /\
    existsb is_ip_marker (filter keep_line raw) = true /\
    existsb is_fwd_marker (filter keep_line raw) = true /\
    check_mand_keywords_da_fwdsim keys_da keys_fwd = Ok tt /\
    plain_organizer keys_da keys_fwd
    = Ok ([("ne", VFloat (fl 100));
           ("truedataindex", float_vector [fl 1; fl 2; fl 3]);
           ("assimindex", float_vector [fl 1; fl 2]);
           ("truedata", VStr "obs.npz"); ("staticvar", VStr "permx");
           ("datavar", VStr "var.npz"); ("obsname", VStr "days");
           ("energy", VFloat (fl 98))],
          [("simulator", VList [VStr "eclipse"; VStr "flow"]);
           ("parallel", VFloat (fl 4));
           ("datatype", VList [VStr "wopr"; VStr "wwpr"])]).
Proof.
  apply (@X20_read_txt_returns_only_validated two_files plain_organizer "da_first.pipt").
  vm_compute. reflexivity.
Defined.

Lemma ip_marker_part (m : string) :
  is_ip_marker m = true ->
  String.eqb (marker_text m) "dataassim" || String.eqb (marker_text m) "optim" = true.
Proof. intros H. exact H. Qed.

(** X21.  For cleaned lines that start with the [dataassim] or [optim]
    line and hold the [fwdsim] line later, no other line being a marker,
    [read_txt] skips the line after each marker, whatever it holds, parses
    what lies between as the first section and what follows as the second,
    validates the two dictionaries and hands them to [Organize_input]. *)
Theorem X21_sections_after_header_lines
        (Organize_input : organizer) (m_da h_da m_fwd h_fwd : string)
        (body_da body_fwd : list string) :
  is_ip_marker m_da = true ->
  is_fwd_marker m_fwd = true ->
  forallb no_marker (h_da :: body_da) = true ->
  forallb no_marker (h_fwd :: body_fwd) = true ->
  read_lines Organize_input ((m_da :: h_da :: body_da) ++ m_fwd :: h_fwd :: body_fwd)
  = (keys_da <- parse_keywords (remove_empty_lines body_da) ;;
     keys_fwd <- parse_keywords (remove_empty_lines body_fwd) ;;
     check_mand_keywords_da_fwdsim keys_da keys_fwd ;;;
     Organize_input keys_da keys_fwd).
Proof.
  intros H1 H2 Hb1 Hb2. unfold read_lines.
  rewrite (markers_da_first m_da m_fwd (h_da :: body_da) (h_fwd :: body_fwd) H1 H2 Hb1 Hb2).
  cbn [ipind fwdsimind ip_part local bind].
  change (0 <? S (List.length (h_da :: body_da))) with true. cbv iota.
  change (S (List.length (h_da :: body_da))) with (List.length (m_da :: h_da :: body_da)).
  rewrite slice_first_section, slice_second_section, (ip_marker_part m_da H1).
  cbn [skipn].
  destruct (parse_keywords (remove_empty_lines body_da)); [|reflexivity]. cbn [bind].
  destruct (parse_keywords (remove_empty_lines body_fwd)); reflexivity.
Qed.

Lemma X21_witness :
  read_lines plain_organizer
    ((ln "OPTIM" :: ln "any text" :: [ln "NE"; ln "100"; nl])
       ++ ln "FWDSIM" :: nl :: [ln "PARALLEL"; ln "4"; nl])
  = Err (AssertionError "TRUEDATAINDEX not in DATAASSIM!").
Proof.
  rewrite (@X21_sections_after_header_lines plain_organizer
             (ln "OPTIM") (ln "any text") (ln "FWDSIM") nl
             [ln "NE"; ln "100"; nl] [ln "PARALLEL"; ln "4"; nl]);
    vm_compute; reflexivity.
Defined.

Lemma markers_after_preamble (pre b1 b2 : list string) (m1 m2 : string) :
  is_ip_marker m1 = true -> is_fwd_marker m2 = true ->
  forallb no_marker pre = true ->
  forallb no_marker b1 = true -> forallb no_marker b2 = true ->
  find_markers ((pre ++ m1 :: b1) ++ m2 :: b2)
  = Markers (Some (List.length pre)) (Some (marker_text m1))
            (Some (List.length (pre ++ m1 :: b1))).
Proof.
  intros H1 H2 Hp Hb1 Hb2. rewrite find_markers_scan.
  rewrite scan_from_app, scan_from_app, (scan_from_no_marker pre _ _ Hp).
  cbn [scan_from Nat.add]. unfold scan at 2. rewrite H1. cbn [fwdsimind].
  rewrite (scan_from_no_marker b1 _ _ Hb1).
  unfold scan at 1. rewrite (fwd_marker_not_ip m2 H2), H2. cbn [ipind ip_part].
  now rewrite (scan_from_no_marker b2 _ _ Hb2).
Qed.

(** X22.  When the [dataassim] or [optim] line comes before the [fwdsim]
    line, the first section is read from the third cleaned line on,
    wherever its marker stands: with two or more lines before the marker,
    the marker line and its section are parsed together with them. *)
Theorem X22_first_section_from_third_line
        (Organize_input : organizer) (pre body_da body_fwd : list string)
        (m_da m_fwd : string) :
  is_ip_marker m_da = true ->
  is_fwd_marker m_fwd = true ->
  forallb no_marker pre = true ->
  forallb no_marker body_da = true ->
  forallb no_marker body_fwd = true ->
  read_lines Organize_input ((pre ++ m_da :: body_da) ++ m_fwd :: body_fwd)
  = (keys_da <- parse_keywords (remove_empty_lines (skipn 2 (pre ++ m_da :: body_da))) ;;
     keys_fwd <- parse_keywords (remove_empty_lines (skipn 1 body_fwd)) ;;
     check_mand_keywords_da_fwdsim keys_da keys_fwd ;;;
     Organize_input keys_da keys_fwd).
Proof.
  intros H1 H2 Hp Hb1 Hb2. unfold read_lines.
  rewrite (markers_after_preamble pre body_da body_fwd m_da m_fwd H1 H2 Hp Hb1 Hb2).
  cbn [ipind fwdsimind ip_part local bind].
  assert (Hlt : (List.length pre <? List.length (pre ++ m_da :: body_da)) = true).
  { apply Nat.ltb_lt. rewrite length_app. cbn [List.length]. lia. }
  rewrite Hlt, slice_first_section, slice_second_section, (ip_marker_part m_da H1).
  change (skipn 2 (m_fwd :: body_fwd)) with (skipn 1 body_fwd).
  destruct (parse_keywords (remove_empty_lines (skipn 2 (pre ++ m_da :: body_da))));
    [|reflexivity]. cbn [bind].
  destruct (parse_keywords (remove_empty_lines (skipn 1 body_fwd))); reflexivity.
Qed.

Lemma X22_witness :
  read_lines plain_organizer
    (([nl; nl] ++ ln "DATAASSIM" :: [nl; ln "NE"; ln "100"; nl])
       ++ ln "FWDSIM" :: [nl; ln "PARALLEL"; ln "4"; nl])
  = Err IndexError.
Proof.
  rewrite (@X22_first_section_from_third_line plain_organizer
             [nl; nl] [nl; ln "NE"; ln "100"; nl] [nl; ln "PARALLEL"; ln "4"; nl]
             (ln "DATAASSIM") (ln "FWDSIM"));
    vm_compute; reflexivity.
Defined.
